(** * LinearB bulk interface: request builder, API gateway and result handler

    A shallow embedding of [streamlit_app.py]:
    - [reformat_filters] and the construction of [requested_metrics],
      [filters], [aggregations] and [payload] (the "Request Builder");
    - [make_linearb_request] (the "API Gateway"), run against an explicit
      model of the network and of [response.json()];
    - the statements that follow the call to the gateway (the handler that
      shows an error and the download link).

    Python values are modelled by the type [value]; a Python [str] is a
    [string] whose characters are code points below 256; a [dict] is an
    association list with unique keys kept in insertion order. *)

From Stdlib Require Import ZArith NArith List String Ascii Bool Lia Arith.
From Stdlib Require Import DecimalString Decimal QArith Strings.Byte.
Import ListNotations.

Set Warnings "-register-all".

Local Open Scope string_scope.
Local Open Scope Z_scope.

(** ** Python values *)

Module Py.

(** The JSON-like fragment of Python's values that the programme handles.
    Numbers that occur in the payload are integers. *)
Inductive value : Type :=
| VNone : value
| VBool : bool -> value
| VInt : Z -> value
| VStr : string -> value
| VList : list value -> value
| VDict : list (string * value) -> value.

Definition dict := list (string * value).

(** [bool(v)]: the truth value Python gives to [v] in [if v]. *)
Definition truthy (v : value) : bool :=
  match v with
  | VNone => false
  | VBool b => b
  | VInt n => negb (n =? 0)
  | VStr s => negb (s =? "")%string
  | VList l => match l with [] => false | _ :: _ => true end
  | VDict d => match d with [] => false | _ :: _ => true end
  end.

(** [d.get(k)] *)
Fixpoint get (k : string) (d : dict) : option value :=
  match d with
  | [] => None
  | (k', v) :: rest => if (k =? k')%string then Some v else get k rest
  end.

(** [k in d] *)
Definition mem (k : string) (d : dict) : bool :=
  match get k d with Some _ => true | None => false end.

(** [d[k] = v]: an existing key keeps its position, a new key goes last. *)
Fixpoint set (k : string) (v : value) (d : dict) : dict :=
  match d with
  | [] => [(k, v)]
  | (k', v') :: rest =>
      if (k =? k')%string then (k', v) :: rest else (k', v') :: set k v rest
  end.

(** [d.update(e)] *)
Definition update (d e : dict) : dict :=
  fold_left (fun acc kv => set (fst kv) (snd kv) acc) e d.

(** Whitespace as [str.isspace] sees it, on code points below 256. *)
Definition isspace (c : ascii) : bool :=
  let n := nat_of_ascii c in
  ((9 <=? n) && (n <=? 13) || (28 <=? n) && (n <=? 32)
   || (n =? 133) || (n =? 160))%nat.

(** [s.split(sep)] for a separator of one character: every occurrence
    of the separator cuts, so empty pieces are kept. *)
Fixpoint split (sep : ascii) (s : string) : list string :=
  match s with
  | EmptyString => [EmptyString]
  | String c rest =>
      if Ascii.eqb c sep then EmptyString :: split sep rest
      else match split sep rest with
           | [] => [String c EmptyString]
           | w :: ws => String c w :: ws
           end
  end.

Fixpoint lstrip (s : string) : string :=
  match s with
  | EmptyString => EmptyString
  | String c rest => if isspace c then lstrip rest else s
  end.

Fixpoint rstrip (s : string) : string :=
  match s with
  | EmptyString => EmptyString
  | String c rest =>
      let r := rstrip rest in
      if isspace c && (r =? "")%string then EmptyString else String c r
  end.

(** [s.strip()] *)
Definition strip (s : string) : string := rstrip (lstrip s).

(** [str(n)] for an integer. *)
Definition str_of_int (n : Z) : string :=
  NilZero.string_of_int (Z.to_int n).

(** [s.zfill(width)]-style padding of the decimal form of a natural
    number, as the numeric directives of [strftime] do. *)
Fixpoint zeros (k : nat) : string :=
  match k with
  | O => EmptyString
  | S k' => String "0"%char (zeros k')
  end.

Definition zero_padded (width : nat) (n : N) : string :=
  let digits := NilZero.string_of_uint (N.to_uint n) in
  (zeros (width - String.length digits) ++ digits)%string.

End Py.

Import Py.

(** ** Helper functions of the application *)

(** [reformat_filters]: [None] for the empty string, otherwise the pieces
    between single spaces, each stripped. *)
Definition reformat_filters (filters : string) : option (list string) :=
  if negb (truthy (VStr filters)) || (Z.of_nat (String.length filters) =? 0)
  then None
  else
    let filters := split " "%char filters in
    let filters := map strip filters in
    Some filters.

(** The result of [reformat_filters] as a Python value. *)
Definition filter_value (o : option (list string)) : value :=
  match o with
  | None => VNone
  | Some l => VList (map VStr l)
  end.

(** [{n: f for n, f in zip(names, values) if f}]: the pairs are visited
    in order and each truthy value is stored under its name. *)
Definition dict_of_truthy (items : list (string * value)) : dict :=
  fold_left
    (fun acc nf => if truthy (snd nf) then Py.set (fst nf) (snd nf) acc else acc)
    items [].

(** ** The form and the metrics table *)

(** The [value] cell of a metrics row.  The column holds either a list of
    aggregation kinds or, where [metrics.json] gives no value, the float
    NaN that pandas stores for a missing entry; the code tells the two
    apart with [type(row["value"]) != float]. *)
Inductive cell : Type :=
| CFloat : cell
| CList : list string -> cell.

Definition is_float (c : cell) : bool :=
  match c with CFloat => true | CList _ => false end.

Record MetricRow : Type := mkRow {
  row_name : string;
  row_selected : bool;
  row_value : cell
}.

(** A [datetime.date]. *)
Record date : Type := mkDate {
  year : N;
  month : N;
  day : N
}.

(** The directive [%Y]: the year in decimal.  The C library writes it:
    glibc does not pad it, so year 999 reads [999]; other C libraries, and
    CPython from 3.13 on, pad it to four digits.  The year is written
    without padding here; from year 1000 on all of them agree. *)
Definition year_text (y : N) : string :=
  NilZero.string_of_uint (N.to_uint y).

(** [d.strftime("%Y-%m-%d")]; [%m] and [%d] pad to two digits. *)
Definition strftime_Ymd (d : date) : string :=
  (year_text (year d) ++ "-" ++ zero_padded 2 (month d) ++ "-"
   ++ zero_padded 2 (day d))%string.

(** What the widgets of the form hold when "Extract Data" is pressed. *)
Record form : Type := mkForm {
  contributor_ids : string;
  team_ids : string;
  repository_ids : string;
  service_ids : string;
  labels : string;
  group_by : string;
  roll_up : string;
  limit : Z;
  before : date;
  after : date
}.

(** ** The request builder *)

(** The inner loop [for v in row["value"]: requested_metrics.append(...)]. *)
Definition append_aggs (name : string) (vs : list string) (acc : list value)
  : list value :=
  fold_left
    (fun acc v => (acc ++ [VDict [("name", VStr name); ("agg", VStr v)]])%list)
    vs acc.

(** One iteration of [for index, row in edited_metrics_df.iterrows()]. *)
Definition metrics_step (acc : list value) (row : MetricRow) : list value :=
  if row_selected row then
    if negb (is_float (row_value row)) then
      match row_value row with
      | CList vs => append_aggs (row_name row) vs acc
      | CFloat => acc (* not reached: a float fails the test above *)
      end
    else (acc ++ [VDict [("name", VStr (row_name row))]])%list
  else acc.

Definition requested_metrics (rows : list MetricRow) : list value :=
  fold_left metrics_step rows [].

Definition filters (f : form) : dict :=
  dict_of_truthy
    [ ("contributor_ids", filter_value (reformat_filters (contributor_ids f)));
      ("team_ids", filter_value (reformat_filters (team_ids f)));
      ("repository_ids", filter_value (reformat_filters (repository_ids f)));
      ("service_ids", filter_value (reformat_filters (service_ids f)));
      ("labels", filter_value (reformat_filters (labels f))) ].

Definition aggregations (f : form) : dict :=
  dict_of_truthy
    [ ("group_by", VStr (group_by f));
      ("roll_up", VStr (roll_up f));
      ("limit", VInt (limit f));
      ("service_ids", VStr (service_ids f)) ].

Definition payload (rows : list MetricRow) (f : form) : dict :=
  let payload :=
    [ ("requested_metrics", VList (requested_metrics rows));
      ("time_ranges",
        VList [ VDict [ ("after", VStr (strftime_Ymd (after f)));
                        ("before", VStr (strftime_Ymd (before f))) ] ]) ] in
  let payload := update payload (filters f) in
  let payload := update payload (aggregations f) in
  payload.

(** ** Effects: a trace of external calls and Python exceptions *)

(** The exceptions that matter to the handlers of the code.  [cls] is the
    name of the class of the exception and [msg] is [str(e)].
    [JSONDecodeError] is [json.JSONDecodeError]; [RequestError] is any class
    of [httpx.RequestError]; [OtherException] is any other class derived
    from [Exception]; [BaseExceptionOnly] is a class derived from
    [BaseException] but not from [Exception], such as [KeyboardInterrupt]
    and [SystemExit]. *)
Inductive exn : Type :=
| JSONDecodeError (msg : string)
| RequestError (cls msg : string)
| OtherException (cls msg : string)
| BaseExceptionOnly (cls msg : string).

Definition class_name (e : exn) : string :=
  match e with
  | JSONDecodeError _ => "JSONDecodeError"
  | RequestError cls _ => cls
  | OtherException cls _ => cls
  | BaseExceptionOnly cls _ => cls
  end.

Definition str_of_exn (e : exn) : string :=
  match e with
  | JSONDecodeError msg => msg
  | RequestError _ msg => msg
  | OtherException _ msg => msg
  | BaseExceptionOnly _ msg => msg
  end.

(** [except json.JSONDecodeError], [except httpx.RequestError] and
    [except Exception]. *)
Definition is_JSONDecodeError (e : exn) : bool :=
  match e with JSONDecodeError _ => true | _ => false end.

Definition is_RequestError (e : exn) : bool :=
  match e with RequestError _ _ => true | _ => false end.

Definition is_Exception (e : exn) : bool :=
  match e with BaseExceptionOnly _ _ => false | _ => true end.

Inductive result (A : Type) : Type :=
| Ok : A -> result A
| Raise : exn -> result A.

Arguments Ok {A} _.
Arguments Raise {A} _.

Record request : Type := mkRequest {
  req_method : string;
  req_url : string;
  req_headers : list (string * value);
  req_params : option dict;
  req_json : option value;
  req_timeout : Q
}.

(** An [httpx.Response], as far as the code looks at it.  [json_] is what
    the call [response.json()] does: it returns a value or raises. *)
Record response : Type := mkResponse {
  status_code : Z;
  content : list byte;
  text : string;
  json_ : result value
}.

(** What the programme does to the outside, in the order it does it. *)
Inductive event : Type :=
| HttpRequest (r : request)
| ResponseJson (r : response)
| FileDump (path : string) (v : value)
| StJson (v : value)
| StError (body : value)
| StLinkButton (label : string) (url : value).

Definition M (A : Type) : Type := list event -> result A * list event.

Definition ret {A} (a : A) : M A := fun t => (Ok a, t).

Definition bind {A B} (m : M A) (k : A -> M B) : M B :=
  fun t =>
    match m t with
    | (Ok a, t') => k a t'
    | (Raise e, t') => (Raise e, t')
    end.

Definition raise {A} (e : exn) : M A := fun t => (Raise e, t).

Definition emit (ev : event) : M unit := fun t => (Ok tt, (t ++ [ev])%list).

Definition lift {A} (r : result A) : M A := fun t => (r, t).

(** The first clause whose class test accepts the exception handles it. *)
Fixpoint handle {A} (clauses : list ((exn -> bool) * (exn -> M A))) (e : exn)
  : M A :=
  match clauses with
  | [] => raise e
  | (accepts, handler) :: rest =>
      if accepts e then handler e else handle rest e
  end.

(** [try: body except C1 as e: h1 except C2 as e: h2 ...] *)
Definition try_ {A} (body : M A)
  (clauses : list ((exn -> bool) * (exn -> M A))) : M A :=
  fun t =>
    match body t with
    | (Ok a, t') => (Ok a, t')
    | (Raise e, t') => handle clauses e t'
    end.

Declare Scope py_scope.
Delimit Scope py_scope with py.
Notation "x <- m ;; k" := (bind m (fun x => k))
  (at level 61, m at next level, right associativity) : py_scope.
Notation "m ;;; k" := (bind m (fun _ => k))
  (at level 61, right associativity) : py_scope.

Local Open Scope py_scope.

(** ** The API gateway *)

Definition LINEARB_API_BASE : string := "https://public-api.linearb.io".
Definition ENDPOINT : string := "/api/v2/measurements/export".

(** [{k: v for k, v in d.items() if v is not None}] *)
Definition drop_none (d : dict) : dict :=
  filter (fun kv => match snd kv with VNone => false | _ => true end) d.

(** ** Membership and subscription, as the handler uses them *)

(** Does the string [needle] occur in [hay]? *)
Fixpoint occurs (needle hay : string) : bool :=
  String.prefix needle hay
  || match hay with
     | EmptyString => false
     | String _ rest => occurs needle rest
     end.

(** [k in v] for a string [k]. *)
Definition contains (k : string) (v : value) : result bool :=
  match v with
  | VDict d => Ok (mem k d)
  | VList l =>
      Ok (existsb
            (fun x => match x with VStr s => (s =? k)%string | _ => false end)
            l)
  | VStr s => Ok (occurs k s)
  | _ => Raise (OtherException "TypeError" "argument is not iterable")
  end.

(** [v[k]] for a string [k]. *)
Definition getitem (k : string) (v : value) : result value :=
  match v with
  | VDict d =>
      match get k d with
      | Some x => Ok x
      | None => Raise (OtherException "KeyError" ("'" ++ k ++ "'")%string)
      end
  | VList _ =>
      Raise (OtherException "TypeError" "list indices must be integers")
  | VStr _ =>
      Raise (OtherException "TypeError" "string indices must be integers")
  | _ => Raise (OtherException "TypeError" "object is not subscriptable")
  end.

Section Gateway.

(** What the network answers to a request: [httpx.request] returns a
    response or raises. *)
Variable network : request -> result response.

(** The secret [api_token], read once when the module is loaded. *)
Variable api_token : value.

Definition httpx_request (r : request) : M response :=
  emit (HttpRequest r) ;;; lift (network r).

Definition response_json (r : response) : M value :=
  emit (ResponseJson r) ;;; lift (json_ r).

Definition make_linearb_request
  (method endpoint : string) (params : option dict)
  (json_data : option value) (timeout : Q) : M value :=
  if negb (truthy api_token) then
    ret (VDict [ ("error", VStr "LinearB API Key is required.");
                 ("status_code", VInt 401) ])
  else
    let headers :=
      [ ("Content-Type", VStr "application/json");
        ("Accept", VStr "application/json");
        ("x-api-key", api_token) ] in
    let url := (LINEARB_API_BASE ++ endpoint)%string in
    let params :=
      match params with
      | Some ((_ :: _) as d) => Some (drop_none d)
      | _ => params
      end in
    let json_data :=
      match json_data with
      | Some (VDict d) => Some (VDict (drop_none d))
      | _ => json_data
      end in
    try_
      (response <- httpx_request
                     (mkRequest method url headers params json_data timeout) ;;
       if (200 <=? status_code response) && (status_code response <? 300)
       then
         if status_code response =? 204 then
           ret (VDict [ ("message",
                          VStr "Operation successful (No Content).");
                        ("status_code", VInt 204) ])
         else
           try_
             (match content response with
              | _ :: _ => response_json response
              | [] =>
                  ret (VDict
                         [ ("message",
                             VStr ("Operation successful (Status: "
                                   ++ str_of_int (status_code response)
                                   ++ ").")%string);
                           ("status_code", VInt (status_code response)) ])
              end)
             [ (is_JSONDecodeError,
                 fun _ =>
                   ret (VDict
                          [ ("error", VStr "Failed to decode JSON response.");
                            ("status_code", VInt (status_code response));
                            ("response_text", VStr (text response)) ])) ]
       else
         error_details <-
           try_ (response_json response)
                [ (is_JSONDecodeError, fun _ => ret (VStr (text response))) ] ;;
         ret (VDict [ ("error", VStr "API request failed.");
                      ("status_code", VInt (status_code response));
                      ("details", error_details) ]))
      [ (is_RequestError,
          fun e =>
            ret (VDict [ ("error",
                           VStr ("HTTP request error: " ++ class_name e)%string);
                         ("details", VStr (str_of_exn e)) ]));
        (is_Exception,
          fun e =>
            ret (VDict [ ("error",
                           VStr ("An unexpected error occurred: "
                                 ++ class_name e)%string);
                         ("details", VStr (str_of_exn e)) ])) ].

(** The request that [make_linearb_request] hands to [httpx.request]. *)
Definition sent_request
  (method endpoint : string) (params : option dict)
  (json_data : option value) (timeout : Q) : request :=
  mkRequest method (LINEARB_API_BASE ++ endpoint)%string
    [ ("Content-Type", VStr "application/json");
      ("Accept", VStr "application/json");
      ("x-api-key", api_token) ]
    match params with
    | Some ((_ :: _) as d) => Some (drop_none d)
    | _ => params
    end
    match json_data with
    | Some (VDict d) => Some (VDict (drop_none d))
    | _ => json_data
    end
    timeout.

(** ** What happens when "Extract Data" is pressed *)

(** [st.link_button(label, url=url)]: the link is shown when [url] is a
    text; any other value is refused with [TypeError]. *)
Definition st_link_button (label : string) (url : value) : M unit :=
  match url with
  | VStr _ => emit (StLinkButton label url)
  | _ => raise (OtherException "TypeError" "url must be a str")
  end.

(** The statements after the call to the gateway:
    [if "error" in response: st.error(response["error"])] and then
    [st.link_button("Download data", url=response['report_url'])]. *)
Definition show_result (response : value) : M unit :=
  has_error <- lift (contains "error" response) ;;
  (if has_error : bool then
     body <- lift (getitem "error" response) ;;
     emit (StError body)
   else ret tt) ;;;
  url <- lift (getitem "report_url" response) ;;
  st_link_button "Download data" url.

(** The body of [if extract:]. *)
Definition on_extract (rows : list MetricRow) (f : form) : M unit :=
  let payload := payload rows f in
  emit (FileDump "payload.json" (VDict payload)) ;;;
  emit (StJson (VDict payload)) ;;;
  response <- make_linearb_request "POST" ENDPOINT None
                (Some (VDict payload)) (30 # 1)%Q ;;
  show_result response.

End Gateway.

(** ** Notions used to state the properties *)

(** The items of a comprehension that pass its [if f] test. *)
Definition keep_truthy (items : list (string * value)) : list (string * value) :=
  filter (fun nf => truthy (snd nf)) items.

(** The entries that the specification expects of one row of the table:
    nothing for a row that is not selected, [{name}] for a scalar value and
    one [{name, agg}] per aggregation kind otherwise. *)
Definition spec_row_entries (r : MetricRow) : list value :=
  if row_selected r then
    match row_value r with
    | CFloat => [VDict [("name", VStr (row_name r))]]
    | CList kinds =>
        map (fun kind => VDict [("name", VStr (row_name r)); ("agg", VStr kind)])
            kinds
    end
  else [].

Definition spec_row_count (r : MetricRow) : nat :=
  if row_selected r then
    match row_value r with
    | CFloat => 1%nat
    | CList kinds => List.length kinds
    end
  else 0%nat.

(** The two keys that every payload has. *)
Definition fixed_key (k : string) : bool :=
  ((k =? "requested_metrics") || (k =? "time_ranges"))%string.

(** Every binding of the payload other than the two fixed ones is truthy:
    it is not [None], not zero, not an empty string and not an empty list. *)
Definition optional_fields_truthy (p : dict) : bool :=
  forallb (fun kv => fixed_key (fst kv) || truthy (snd kv)) p.

Definition is_digit (c : ascii) : bool :=
  let n := nat_of_ascii c in ((48 <=? n) && (n <=? 57))%nat.

Definition all_digits (s : string) : bool :=
  forallb is_digit (list_ascii_of_string s).

(** The shape [YYYY-MM-DD]: ten characters, digits around two hyphens. *)
Definition is_Ymd (s : string) : bool :=
  (String.length s =? 10)%nat
  && all_digits (substring 0 4 s)
  && (substring 4 1 s =? "-")%string
  && all_digits (substring 5 2 s)
  && (substring 7 1 s =? "-")%string
  && all_digits (substring 8 2 s).

(** A date that the date pickers of the form can return.  [st.date_input]
    without bounds offers the dates from ten years before to ten years
    after today, so the year has four digits. *)
Definition picker_date (d : date) : Prop :=
  (1000 <= year d <= 9999 /\ 1 <= month d <= 12 /\ 1 <= day d <= 31)%N.

(** The number that a text of digits writes. *)
Definition digits_value (s : string) : N :=
  fold_left (fun acc c => (10 * acc + (N.of_nat (nat_of_ascii c) - 48))%N)
            (list_ascii_of_string s) 0%N.

(** Reading a text of the shape [YYYY-MM-DD] back as a date. *)
Definition parse_Ymd (s : string) : option date :=
  if is_Ymd s then
    Some (mkDate (digits_value (substring 0 4 s))
                 (digits_value (substring 5 2 s))
                 (digits_value (substring 8 2 s)))
  else None.

(** Exactly [w] characters, all of them digits. *)
Definition digits_of_width (w : nat) (s : string) : bool :=
  (String.length s =? w)%nat && all_digits s.

(** The end-to-end scenario of the specification, and variations of it. *)
Definition scenario_rows : list MetricRow :=
  [ mkRow "cycle_time" true (CList ["p75"; "avg"]);
    mkRow "deploy_frequency" false (CList ["avg"]) ].

Definition scenario_form : form :=
  mkForm "" "12 34" "" "" "" "team" "1w" 2
         (mkDate 2024 1 31) (mkDate 2024 1 1).

(** The same form with a single space typed as contributor ids. *)
Definition blank_contributor_form : form :=
  mkForm " " "12 34" "" "" "" "team" "1w" 2
         (mkDate 2024 1 31) (mkDate 2024 1 1).

(** The same form with two service ids. *)
Definition service_form : form :=
  mkForm "" "12 34" "" "7 8" "" "team" "1w" 2
         (mkDate 2024 1 31) (mkDate 2024 1 1).

(** The shapes of the dictionaries that the gateway returns, named after
    the variants of the specification's [ApiResult]. *)
Definition MissingCredential : value :=
  VDict [ ("error", VStr "LinearB API Key is required.");
          ("status_code", VInt 401) ].

Definition NoContent : value :=
  VDict [ ("message", VStr "Operation successful (No Content).");
          ("status_code", VInt 204) ].

Definition EmptyBody (status : Z) : value :=
  VDict [ ("message",
            VStr ("Operation successful (Status: " ++ str_of_int status ++ ")."));
          ("status_code", VInt status) ].

Definition DecodeError (status : Z) (raw_text : string) : value :=
  VDict [ ("error", VStr "Failed to decode JSON response.");
          ("status_code", VInt status);
          ("response_text", VStr raw_text) ].

Definition HttpError (status : Z) (details : value) : value :=
  VDict [ ("error", VStr "API request failed.");
          ("status_code", VInt status);
          ("details", details) ].

Definition TransportError (kind message : string) : value :=
  VDict [ ("error", VStr ("HTTP request error: " ++ kind));
          ("details", VStr message) ].

Definition UnexpectedError (kind message : string) : value :=
  VDict [ ("error", VStr ("An unexpected error occurred: " ++ kind));
          ("details", VStr message) ].

(** What the two outer [except] clauses make of an exception raised inside
    the [try]: a class of [httpx.RequestError] gives the "HTTP request
    error" dictionary, any other class of [Exception] the "unexpected
    error" one, and an exception that is no [Exception] is not caught. *)
Definition caught (e : exn) : result value :=
  if is_RequestError e then Ok (TransportError (class_name e) (str_of_exn e))
  else if is_Exception e
       then Ok (UnexpectedError (class_name e) (str_of_exn e))
       else Raise e.

(** The classification of a response, lines 73 to 94 of the source,
    once [httpx.request] has returned it. *)
Definition classified (resp : response) : M value :=
  if (200 <=? status_code resp) && (status_code resp <? 300) then
    if status_code resp =? 204 then ret NoContent
    else
      match content resp with
      | _ :: _ =>
          try_ (response_json resp)
            [ (is_JSONDecodeError,
                fun _ => ret (DecodeError (status_code resp) (text resp))) ]
      | [] => ret (EmptyBody (status_code resp))
      end
  else
    error_details <-
      try_ (response_json resp)
        [ (is_JSONDecodeError, fun _ => ret (VStr (text resp))) ] ;;
    ret (HttpError (status_code resp) error_details).

(** A network on which every request times out. *)
Definition timeout_network (r : request) : result response :=
  Raise (RequestError "ConnectTimeout" "timed out").

(** A network that fails outside the classes of [httpx.RequestError]. *)
Definition broken_network (r : request) : result response :=
  Raise (OtherException "InvalidURL" "Invalid non-printable ASCII character in URL").

(** A network that always answers with the given response. *)
Definition answering (resp : response) (r : request) : result response :=
  Ok resp.

(** The bytes of an ASCII text. *)
Definition bytes_of (s : string) : list byte := list_byte_of_string s.

(** A text between double quotes, as JSON writes it. *)
Definition quoted (s : string) : string :=
  String (ascii_of_nat 34) (s ++ String (ascii_of_nat 34) "").

(** One JSON object with one text member. *)
Definition json_member (k v : string) : string :=
  "{" ++ quoted k ++ ":" ++ quoted v ++ "}".

Definition not_found_response : response :=
  let body := json_member "msg" "not found" in
  mkResponse 404 (bytes_of body) body
    (Ok (VDict [("msg", VStr "not found")])).

Definition report_response : response :=
  let body := json_member "report_url" "https://x/r.csv" in
  mkResponse 200 (bytes_of body) body
    (Ok (VDict [("report_url", VStr "https://x/r.csv")])).



Definition no_content_response : response :=
  mkResponse 204 [] "" (Raise (JSONDecodeError "Expecting value")).


(** The call that [on_extract] makes for the scenario of the specification,
    and the request it sends. *)
Definition scenario_call (network : request -> result response)
  (api_token : value) : M value :=
  make_linearb_request network api_token "POST" ENDPOINT None
    (Some (VDict (payload scenario_rows scenario_form))) (30 # 1)%Q.

Definition scenario_request (api_token : value) : request :=
  sent_request api_token "POST" ENDPOINT None
    (Some (VDict (payload scenario_rows scenario_form))) (30 # 1)%Q.

Definition KeyError_report_url : exn := OtherException "KeyError" "'report_url'".

(** [" ".join(ws)] *)
Fixpoint join_spaces (ws : list string) : string :=
  match ws with
  | [] => ""
  | [w] => w
  | w :: rest => w ++ String " " (join_spaces rest)
  end.

(** A text without any whitespace, as an id is. *)
Definition no_space (w : string) : bool :=
  forallb (fun c => negb (isspace c)) (list_ascii_of_string w).

(** What was entered in the form, under the key it is sent with. *)
Definition form_fields (f : form) : dict :=
  [ ("contributor_ids", VStr (contributor_ids f));
    ("team_ids", VStr (team_ids f));
    ("repository_ids", VStr (repository_ids f));
    ("service_ids", VStr (service_ids f));
    ("labels", VStr (labels f));
    ("group_by", VStr (group_by f));
    ("roll_up", VStr (roll_up f));
    ("limit", VInt (limit f)) ].

(** ** Further notions, for the properties beyond the specification *)

(** How often the character [c] occurs in [s]. *)
Fixpoint count_char (c : ascii) (s : string) : nat :=
  match s with
  | EmptyString => 0%nat
  | String c' rest =>
      ((if Ascii.eqb c' c then 1 else 0) + count_char c rest)%nat
  end.

(** Does the character [c] occur in [s]? *)
Definition has_char (c : ascii) (s : string) : bool :=
  existsb (fun c' => Ascii.eqb c' c) (list_ascii_of_string s).

(** A text whose only whitespace is the space character. *)
Definition only_space_whitespace (s : string) : bool :=
  forallb (fun c => negb (isspace c) || Ascii.eqb c " ")
          (list_ascii_of_string s).

(** The texts of the five filters, under their keys. *)
Definition filter_texts (f : form) : list (string * string) :=
  [ ("contributor_ids", contributor_ids f);
    ("team_ids", team_ids f);
    ("repository_ids", repository_ids f);
    ("service_ids", service_ids f);
    ("labels", labels f) ].

(** The list of tokens of a text, as a Python value. *)
Definition token_list (s : string) : value :=
  VList (map VStr (map strip (split " " s))).

(** Every key that a payload can have. *)
Definition payload_keys : list string :=
  [ "requested_metrics"; "time_ranges"; "contributor_ids"; "team_ids";
    "repository_ids"; "service_ids"; "labels"; "group_by"; "roll_up";
    "limit" ].

(** The names that the entries of [requested_metrics] carry. *)
Definition metric_names (entries : list value) : list string :=
  flat_map
    (fun e =>
       match e with
       | VDict d =>
           match get "name" d with
           | Some (VStr n) => [n]
           | _ => []
           end
       | _ => []
       end)
    entries.

(** Is [response.json()] called on this response?  Not for status 204 and
    not for another status from 200 to 299 with an empty body. *)
Definition json_is_called (resp : response) : bool :=
  if (200 <=? status_code resp) && (status_code resp <? 300)
  then negb (status_code resp =? 204)
       && match content resp with [] => false | _ :: _ => true end
  else true.

(** A response whose body is the single byte ff, which is not valid
    UTF-8: [json.loads] raises [UnicodeDecodeError], which is not a
    [json.JSONDecodeError].  Its text, the replacement character, is
    beyond the characters of [string]; a question mark stands for it, and
    the gateway does not read the text when this error is raised. *)
Definition undecodable_body (status : Z) : response :=
  mkResponse status [xff] "?"
    (Raise (OtherException "UnicodeDecodeError"
              "'utf-8' codec can't decode byte 0xff in position 0: invalid start byte")).

Definition undecodable_response : response := undecodable_body 200.


(** A response whose body has [null] as [report_url]. *)
Definition null_url_response : response :=
  let body := "{" ++ quoted "report_url" ++ ":null}" in
  mkResponse 200 (bytes_of body) body (Ok (VDict [("report_url", VNone)])).

(** A network on which the request is interrupted from the keyboard. *)
Definition interrupted_network (r : request) : result response :=
  Raise (BaseExceptionOnly "KeyboardInterrupt" "").

(** The dictionaries that the gateway builds itself. *)
Definition built_by_gateway (v : value) : Prop :=
  v = MissingCredential
  \/ v = NoContent
  \/ (exists status, v = EmptyBody status)
  \/ (exists status raw, v = DecodeError status raw)
  \/ (exists status details, v = HttpError status details)
  \/ (exists kind message, v = TransportError kind message)
  \/ (exists kind message, v = UnexpectedError kind message).

(** The request that [on_extract] makes the gateway send. *)
Definition extract_request (api_token : value) (rows : list MetricRow)
  (f : form) : request :=
  sent_request api_token "POST" ENDPOINT None
    (Some (VDict (payload rows f))) (30 # 1)%Q.

(** What [on_extract] does before it calls the gateway: the payload is
    written to [payload.json] and shown. *)
Definition payload_events (rows : list MetricRow) (f : form) : list event :=
  [ FileDump "payload.json" (VDict (payload rows f));
    StJson (VDict (payload rows f)) ].

(** Lines 13 and 14: [for m in metrics_list: m["selected"] = True]. *)
Definition mark_selected (metrics_list : list dict) : list dict :=
  map (Py.set "selected" (VBool true)) metrics_list.

(** * Properties *)

(** ** Dictionaries *)

Module DictFacts.

Lemma get_set (k k' : string) (v : value) (d : dict) :
  get k (Py.set k' v d) = if (k =? k')%string then Some v else get k d.
Proof.
  induction d as [|[k0 v0] d IH]; simpl.
  - reflexivity.
  - destruct (String.eqb_spec k' k0) as [->|Hne]; simpl.
    + destruct (k =? k0)%string; reflexivity.
    + rewrite IH.
      destruct (String.eqb_spec k k0) as [E|Hne'];
        destruct (String.eqb_spec k k') as [E'|Hne'']; try reflexivity.
      congruence.
Qed.

Lemma keys_set (k : string) (v : value) (d : dict) :
  map fst (Py.set k v d) =
  if mem k d then map fst d else (map fst d ++ [k])%list.
Proof.
  unfold mem. induction d as [|[k0 v0] d IH]; simpl.
  - reflexivity.
  - destruct (String.eqb_spec k k0) as [->|Hne]; simpl.
    + reflexivity.
    + rewrite IH. destruct (get k d); reflexivity.
Qed.

Lemma get_None_keys (k : string) (d : dict) :
  get k d = None <-> ~ In k (map fst d).
Proof.
  induction d as [|[k0 v0] d IH]; simpl.
  - tauto.
  - destruct (String.eqb_spec k k0) as [->|Hne].
    + split; [discriminate | intros H; exfalso; apply H; now left].
    + rewrite IH. split.
      * intros H [E|HIn]; [congruence | tauto].
      * tauto.
Qed.

Lemma NoDup_keys_set (k : string) (v : value) (d : dict) :
  NoDup (map fst d) -> NoDup (map fst (Py.set k v d)).
Proof.
  intros Hnd. rewrite keys_set. unfold mem.
  destruct (get k d) eqn:E; [assumption|].
  apply get_None_keys in E.
  apply NoDup_app; [assumption | repeat constructor; simpl; tauto |].
  intros x Hx [<-|[]]. contradiction.
Qed.

Lemma get_In (k : string) (v : value) (d : dict) :
  get k d = Some v -> In (k, v) d.
Proof.
  induction d as [|[k0 v0] d IH]; simpl; [discriminate|].
  destruct (String.eqb_spec k k0) as [->|Hne].
  - intros [= ->]. now left.
  - intros H. right. auto.
Qed.

Lemma In_get (k : string) (v : value) (d : dict) :
  NoDup (map fst d) -> In (k, v) d -> get k d = Some v.
Proof.
  induction d as [|[k0 v0] d IH]; simpl; intros Hnd HIn; [contradiction|].
  inversion Hnd as [|? ? Hnotin Hnd']; subst.
  destruct HIn as [[= -> ->]|HIn].
  - now rewrite String.eqb_refl.
  - destruct (String.eqb_spec k k0) as [->|Hne]; [|auto].
    exfalso. apply Hnotin. apply in_map_iff. now exists (k0, v).
Qed.

Lemma get_app (k : string) (d e : dict) :
  get k (d ++ e)%list =
  match get k d with Some v => Some v | None => get k e end.
Proof.
  induction d as [|[k0 v0] d IH]; simpl; [reflexivity|].
  destruct (k =? k0)%string; [reflexivity | exact IH].
Qed.

(** With unique keys the order of the items does not matter to [get]. *)
Lemma get_rev (k : string) (d : dict) :
  NoDup (map fst d) -> get k (List.rev d) = get k d.
Proof.
  induction d as [|[k0 v0] d IH]; simpl; intros Hnd; [reflexivity|].
  inversion Hnd as [|? ? Hnotin Hnd']; subst.
  rewrite get_app, (IH Hnd'). simpl.
  destruct (String.eqb_spec k k0) as [->|Hne].
  - apply get_None_keys in Hnotin. now rewrite Hnotin.
  - destruct (get k d); reflexivity.
Qed.

(** [d.update(e)]: the last binding of a key in [e] wins, and the keys
    that [e] does not have keep their value. *)
Lemma get_update (k : string) (e d : dict) :
  get k (update d e) =
  match get k (List.rev e) with Some v => Some v | None => get k d end.
Proof.
  unfold update. revert d.
  induction e as [|[k0 v0] e IH]; intros d; simpl; [reflexivity|].
  rewrite IH, get_app, get_set. simpl.
  destruct (get k (List.rev e)); [reflexivity|].
  destruct (k =? k0)%string; reflexivity.
Qed.

Lemma NoDup_keys_update (e d : dict) :
  NoDup (map fst d) -> NoDup (map fst (update d e)).
Proof.
  unfold update. revert d.
  induction e as [|[k0 v0] e IH]; intros d Hnd; simpl; [assumption|].
  apply IH, NoDup_keys_set, Hnd.
Qed.

Lemma dict_of_truthy_update (items : list (string * value)) :
  dict_of_truthy items = update [] (keep_truthy items).
Proof.
  unfold dict_of_truthy, update. generalize (@nil (string * value)).
  induction items as [|[n f] items IH]; intros acc; simpl; [reflexivity|].
  destruct (truthy f); simpl; apply IH.
Qed.

Lemma NoDup_keys_dict_of_truthy (items : list (string * value)) :
  NoDup (map fst (dict_of_truthy items)).
Proof.
  rewrite dict_of_truthy_update. apply NoDup_keys_update. constructor.
Qed.

Lemma keys_keep_truthy (items : list (string * value)) (k : string) :
  In k (map fst (keep_truthy items)) -> In k (map fst items).
Proof.
  unfold keep_truthy. rewrite !in_map_iff.
  intros [x [E HIn]]. apply filter_In in HIn. exists x. tauto.
Qed.

Lemma NoDup_keys_keep_truthy (items : list (string * value)) :
  NoDup (map fst items) -> NoDup (map fst (keep_truthy items)).
Proof.
  induction items as [|[n f] items IH]; simpl; intros Hnd; [constructor|].
  inversion Hnd as [|? ? Hnotin Hnd']; subst.
  destruct (truthy f); simpl; [|auto].
  constructor; [|auto].
  intros HIn. apply Hnotin. now apply keys_keep_truthy.
Qed.

Lemma get_keep_truthy (k : string) (items : list (string * value)) :
  NoDup (map fst items) ->
  get k (keep_truthy items) =
  match get k items with
  | Some v => if truthy v then Some v else None
  | None => None
  end.
Proof.
  induction items as [|[n f] items IH]; simpl; intros Hnd; [reflexivity|].
  inversion Hnd as [|? ? Hnotin Hnd']; subst.
  destruct (String.eqb_spec k n) as [->|Hne].
  - destruct (truthy f) eqn:Ef; simpl.
    + now rewrite String.eqb_refl.
    + apply get_None_keys. intros HIn. apply Hnotin.
      now apply keys_keep_truthy.
  - destruct (truthy f); simpl.
    + apply String.eqb_neq in Hne. rewrite Hne. auto.
    + auto.
Qed.

(** The comprehension [{n: f for n, f in zip(names, values) if f}] over
    distinct names binds a name exactly when its value is truthy. *)
Lemma get_dict_of_truthy (k : string) (items : list (string * value)) :
  NoDup (map fst items) ->
  get k (dict_of_truthy items) =
  match get k items with
  | Some v => if truthy v then Some v else None
  | None => None
  end.
Proof.
  intros Hnd. rewrite dict_of_truthy_update, get_update. simpl.
  rewrite get_rev by now apply NoDup_keys_keep_truthy.
  rewrite get_keep_truthy by assumption.
  destruct (get k items) as [v|]; [destruct (truthy v)|]; reflexivity.
Qed.

Lemma get_update_dict_of_truthy (k : string) (items : list (string * value))
  (d : dict) :
  NoDup (map fst items) ->
  get k (update d (dict_of_truthy items)) =
  match get k items with
  | Some v => if truthy v then Some v else get k d
  | None => get k d
  end.
Proof.
  intros Hnd. rewrite get_update.
  rewrite get_rev by apply NoDup_keys_dict_of_truthy.
  rewrite get_dict_of_truthy by assumption.
  destruct (get k items) as [v|]; [destruct (truthy v)|]; reflexivity.
Qed.

End DictFacts.

(** ** The request builder *)

Module Builder.

Import DictFacts.

Ltac distinct_keys :=
  simpl; repeat constructor; simpl; intuition discriminate.

(** *** Filters *)

Lemma split_not_nil (sep : ascii) (s : string) : split sep s <> [].
Proof.
  destruct s as [|c s]; simpl; [discriminate|].
  destruct (Ascii.eqb c sep); [discriminate|].
  destruct (split sep s); discriminate.
Qed.

Lemma reformat_filters_empty : reformat_filters "" = None.
Proof. reflexivity. Qed.

Lemma reformat_filters_not_empty (s : string) :
  s <> "" -> reformat_filters s = Some (map strip (split " " s)).
Proof.
  destruct s as [|c s]; [congruence|]. reflexivity.
Qed.

(** The value that [reformat_filters] hands to the comprehension is
    truthy exactly when the text typed in the form is not empty. *)
Lemma truthy_filter_value (s : string) :
  truthy (filter_value (reformat_filters s)) = negb (s =? "")%string.
Proof.
  destruct s as [|c s]; [reflexivity|].
  rewrite reformat_filters_not_empty by discriminate.
  pose proof (split_not_nil " " (String c s)) as Hne.
  destruct (split " " (String c s)) as [|w ws]; [congruence | reflexivity].
Qed.

(** Which filter keys the comprehension of [filters] binds. *)
Lemma get_filters (k : string) (f : form) :
  get k (filters f) =
  match
    get k [ ("contributor_ids", VStr (contributor_ids f));
            ("team_ids", VStr (team_ids f));
            ("repository_ids", VStr (repository_ids f));
            ("service_ids", VStr (service_ids f));
            ("labels", VStr (labels f)) ]
  with
  | Some (VStr s) =>
      if (s =? "")%string then None
      else Some (filter_value (reformat_filters s))
  | _ => None
  end.
Proof.
  unfold filters. rewrite get_dict_of_truthy by distinct_keys.
  cbn [get].
  repeat match goal with
         | |- context [(k =? ?lit)%string] =>
             destruct (k =? lit)%string;
             [ rewrite truthy_filter_value;
               match goal with
               | |- context [(?s =? "")%string] =>
                   destruct (s =? "")%string; reflexivity
               end | ]
         end.
  reflexivity.
Qed.

(** Both comprehensions merged into the payload, key by key: a truthy
    aggregation option wins, then a truthy filter, then the two fixed
    keys. *)
Lemma get_payload (k : string) (rows : list MetricRow) (f : form) :
  get k (payload rows f) =
  match get k (aggregations f) with
  | Some v => Some v
  | None =>
      match get k (filters f) with
      | Some v => Some v
      | None =>
          get k [ ("requested_metrics", VList (requested_metrics rows));
                  ("time_ranges",
                    VList [ VDict [ ("after", VStr (strftime_Ymd (after f)));
                                    ("before", VStr (strftime_Ymd (before f))) ] ]) ]
      end
  end.
Proof.
  unfold payload. rewrite !get_update.
  rewrite !get_rev by (apply NoDup_keys_dict_of_truthy). reflexivity.
Qed.

Lemma get_aggregations (k : string) (f : form) :
  get k (aggregations f) =
  match
    get k [ ("group_by", VStr (group_by f));
            ("roll_up", VStr (roll_up f));
            ("limit", VInt (limit f));
            ("service_ids", VStr (service_ids f)) ]
  with
  | Some v => if truthy v then Some v else None
  | None => None
  end.
Proof. unfold aggregations. now rewrite get_dict_of_truthy by distinct_keys. Qed.

Lemma get_truthy_dict_of_truthy (k : string) (v : value)
  (items : list (string * value)) :
  get k (dict_of_truthy items) = Some v -> truthy v = true.
Proof.
  rewrite dict_of_truthy_update, get_update. simpl.
  destruct (get k (List.rev (keep_truthy items))) as [w|] eqn:E;
    [|discriminate].
  intros [= <-]. apply get_In, in_rev, filter_In in E. tauto.
Qed.

Lemma NoDup_keys_payload (rows : list MetricRow) (f : form) :
  NoDup (map fst (payload rows f)).
Proof.
  unfold payload. do 2 apply NoDup_keys_update. distinct_keys.
Qed.

Lemma payload_optional_fields_truthy (rows : list MetricRow) (f : form) :
  optional_fields_truthy (payload rows f) = true.
Proof.
  apply forallb_forall. intros [k v] HIn. simpl.
  apply In_get in HIn; [|apply NoDup_keys_payload].
  rewrite get_payload in HIn.
  destruct (get k (aggregations f)) as [w|] eqn:Ea.
  - injection HIn as <-. apply get_truthy_dict_of_truthy in Ea.
    rewrite Ea. apply orb_true_r.
  - destruct (get k (filters f)) as [w|] eqn:Ef.
    + injection HIn as <-. apply get_truthy_dict_of_truthy in Ef.
      rewrite Ef. apply orb_true_r.
    + unfold fixed_key. simpl in HIn.
      destruct (k =? "requested_metrics")%string; [reflexivity|].
      destruct (k =? "time_ranges")%string; [reflexivity | discriminate].
Qed.

Lemma payload_limit (rows : list MetricRow) (f : form) :
  get "limit" (payload rows f) =
  if limit f =? 0 then None else Some (VInt (limit f)).
Proof.
  rewrite get_payload, get_aggregations. simpl.
  destruct (limit f =? 0); simpl; [|reflexivity].
  rewrite get_filters. reflexivity.
Qed.

Lemma payload_service_ids (rows : list MetricRow) (f : form) :
  get "service_ids" (payload rows f) =
  if (service_ids f =? "")%string then None else Some (VStr (service_ids f)).
Proof.
  rewrite get_payload, get_aggregations. simpl.
  destruct (service_ids f =? "")%string eqn:E; simpl; [|reflexivity].
  rewrite get_filters. simpl. now rewrite E.
Qed.

Lemma payload_time_ranges (rows : list MetricRow) (f : form) :
  get "time_ranges" (payload rows f) =
  Some (VList [ VDict [ ("after", VStr (strftime_Ymd (after f)));
                        ("before", VStr (strftime_Ymd (before f))) ] ]).
Proof.
  rewrite get_payload, get_aggregations, get_filters. reflexivity.
Qed.

Lemma payload_requested_metrics (rows : list MetricRow) (f : form) :
  get "requested_metrics" (payload rows f) =
  Some (VList (requested_metrics rows)).
Proof.
  rewrite get_payload, get_aggregations, get_filters. reflexivity.
Qed.

(** *** Metrics *)

Lemma append_aggs_map (name : string) (vs : list string) (acc : list value) :
  append_aggs name vs acc =
  (acc ++ map (fun v => VDict [("name", VStr name); ("agg", VStr v)]) vs)%list.
Proof.
  unfold append_aggs. revert acc.
  induction vs as [|v vs IH]; intros acc; simpl.
  - now rewrite app_nil_r.
  - now rewrite IH, <- app_assoc.
Qed.

Lemma metrics_step_entries (acc : list value) (r : MetricRow) :
  metrics_step acc r = (acc ++ spec_row_entries r)%list.
Proof.
  unfold metrics_step, spec_row_entries.
  destruct (row_selected r); [|now rewrite app_nil_r].
  destruct (row_value r) as [|kinds]; simpl; [reflexivity|].
  apply append_aggs_map.
Qed.

Lemma fold_metrics_step (rows : list MetricRow) (acc : list value) :
  fold_left metrics_step rows acc =
  (acc ++ flat_map spec_row_entries rows)%list.
Proof.
  revert acc. induction rows as [|r rows IH]; intros acc; simpl.
  - now rewrite app_nil_r.
  - now rewrite IH, metrics_step_entries, <- app_assoc.
Qed.

Lemma length_spec_row_entries (r : MetricRow) :
  List.length (spec_row_entries r) = spec_row_count r.
Proof.
  unfold spec_row_entries, spec_row_count.
  destruct (row_selected r); [|reflexivity].
  destruct (row_value r); [reflexivity | apply length_map].
Qed.

(** *** Dates *)

Lemma year_four_digits (y : N) :
  (1000 <= y <= 9999)%N ->
  digits_of_width 4 (year_text y) = true
  /\ digits_value (year_text y) = y.
Proof.
  intros Hy.
  assert (Hall : forallb
                   (fun n =>
                      (N.of_nat n <? 1000)%N
                      || digits_of_width 4 (year_text (N.of_nat n))
                         && (digits_value (year_text (N.of_nat n)) =? N.of_nat n)%N)
                   (seq 0 (N.to_nat 10000)) = true) by (vm_compute; reflexivity).
  rewrite forallb_forall in Hall.
  specialize (Hall (N.to_nat y)). rewrite N2Nat.id in Hall.
  assert (HIn : In (N.to_nat y) (seq 0 (N.to_nat 10000))) by (apply in_seq; lia).
  specialize (Hall HIn).
  apply orb_true_iff in Hall. destruct Hall as [Hlt|Hok].
  - apply N.ltb_lt in Hlt. lia.
  - apply andb_true_iff in Hok. destruct Hok as [Hw Hv].
    apply N.eqb_eq in Hv. now split.
Qed.

Lemma two_digits (n : N) :
  (n <= 99)%N ->
  digits_of_width 2 (zero_padded 2 n) = true
  /\ digits_value (zero_padded 2 n) = n.
Proof.
  intros Hn.
  assert (Hall : forallb
                   (fun n =>
                      digits_of_width 2 (zero_padded 2 (N.of_nat n))
                      && (digits_value (zero_padded 2 (N.of_nat n)) =? N.of_nat n)%N)
                   (seq 0 100) = true) by (vm_compute; reflexivity).
  rewrite forallb_forall in Hall.
  specialize (Hall (N.to_nat n)). rewrite N2Nat.id in Hall.
  assert (HIn : In (N.to_nat n) (seq 0 100)) by (apply in_seq; lia).
  specialize (Hall HIn).
  apply andb_true_iff in Hall. destruct Hall as [Hw Hv].
  apply N.eqb_eq in Hv. now split.
Qed.

Lemma is_Ymd_parts (y m d : string) :
  digits_of_width 4 y = true ->
  digits_of_width 2 m = true ->
  digits_of_width 2 d = true ->
  is_Ymd (y ++ "-" ++ m ++ "-" ++ d) = true.
Proof.
  unfold digits_of_width, all_digits.
  destruct y as [|y1 [|y2 [|y3 [|y4 [|? ?]]]]]; try discriminate.
  destruct m as [|m1 [|m2 [|? ?]]]; try discriminate.
  destruct d as [|d1 [|d2 [|? ?]]]; try discriminate.
  unfold is_Ymd, all_digits. simpl.
  intros Hy Hm Hd. rewrite Hy, Hm, Hd. reflexivity.
Qed.

Lemma parse_Ymd_parts (y m d : string) :
  digits_of_width 4 y = true ->
  digits_of_width 2 m = true ->
  digits_of_width 2 d = true ->
  parse_Ymd (y ++ "-" ++ m ++ "-" ++ d)
  = Some (mkDate (digits_value y) (digits_value m) (digits_value d)).
Proof.
  intros Hy Hm Hd. unfold parse_Ymd.
  rewrite is_Ymd_parts by assumption.
  unfold digits_of_width in *.
  destruct y as [|y1 [|y2 [|y3 [|y4 [|? ?]]]]]; try discriminate.
  destruct m as [|m1 [|m2 [|? ?]]]; try discriminate.
  destruct d as [|d1 [|d2 [|? ?]]]; try discriminate.
  reflexivity.
Qed.

Lemma strftime_is_Ymd (d : date) :
  picker_date d -> is_Ymd (strftime_Ymd d) = true.
Proof.
  intros (Hy & Hm & Hd). unfold strftime_Ymd.
  apply is_Ymd_parts;
    [apply year_four_digits | apply two_digits | apply two_digits]; lia.
Qed.

(** The text that [strftime] writes reads back as the date it was given. *)
Lemma parse_strftime_Ymd (d : date) :
  picker_date d -> parse_Ymd (strftime_Ymd d) = Some d.
Proof.
  intros (Hy & Hm & Hd). unfold strftime_Ymd.
  destruct (year_four_digits (year d) Hy) as [Hyw Hyv].
  destruct (two_digits (month d)) as [Hmw Hmv]; [lia|].
  destruct (two_digits (day d)) as [Hdw Hdv]; [lia|].
  rewrite parse_Ymd_parts by assumption.
  rewrite Hyv, Hmv, Hdv. now destruct d.
Qed.

(** *** The claims about the request builder *)

Example scenario_payload :
  payload scenario_rows scenario_form =
  [ ("requested_metrics",
      VList [ VDict [("name", VStr "cycle_time"); ("agg", VStr "p75")];
              VDict [("name", VStr "cycle_time"); ("agg", VStr "avg")] ]);
    ("time_ranges",
      VList [ VDict [("after", VStr "2024-01-01");
                     ("before", VStr "2024-01-31")] ]);
    ("team_ids", VList [VStr "12"; VStr "34"]);
    ("group_by", VStr "team");
    ("roll_up", VStr "1w");
    ("limit", VInt 2) ].
Proof. reflexivity. Qed.

(** A filter key is left out exactly when nothing was typed. *)
Lemma filter_key_omitted_iff (k : string) (f : form) (s : string) :
  get k [ ("contributor_ids", VStr (contributor_ids f));
          ("team_ids", VStr (team_ids f));
          ("repository_ids", VStr (repository_ids f));
          ("service_ids", VStr (service_ids f));
          ("labels", VStr (labels f)) ] = Some (VStr s) ->
  (get k (filters f) = None <-> s = "").
Proof.
  intros Hk. rewrite get_filters, Hk.
  destruct (String.eqb_spec s "") as [->|Hne].
  - tauto.
  - rewrite reformat_filters_not_empty by assumption. simpl.
    split; [discriminate | contradiction].
Qed.

(** Where the code and the claim agree: ids without whitespace, typed
    with one space between them, come back as they were typed. *)
Lemma split_one_word (w : string) :
  no_space w = true -> split " " w = [w].
Proof.
  unfold no_space. induction w as [|c w IH]; simpl; [reflexivity|].
  intros H. apply andb_true_iff in H. destruct H as [Hc Hw].
  destruct (Ascii.eqb_spec c " ") as [->|_]; [discriminate|].
  now rewrite IH.
Qed.

Lemma split_word_then_space (w rest : string) :
  no_space w = true ->
  split " " (w ++ String " " rest) = w :: split " " rest.
Proof.
  unfold no_space. induction w as [|c w IH]; simpl; [reflexivity|].
  intros H. apply andb_true_iff in H. destruct H as [Hc Hw].
  destruct (Ascii.eqb_spec c " ") as [->|_]; [discriminate|].
  now rewrite IH.
Qed.

Lemma strip_word (w : string) : no_space w = true -> strip w = w.
Proof.
  unfold no_space, strip. intros H.
  assert (El : lstrip w = w).
  { destruct w as [|c w]; [reflexivity|]. simpl in *.
    apply andb_true_iff in H. destruct H as [Hc _].
    apply negb_true_iff in Hc. now rewrite Hc. }
  rewrite El. clear El.
  induction w as [|c w IH]; simpl in *; [reflexivity|].
  apply andb_true_iff in H. destruct H as [Hc Hw].
  apply negb_true_iff in Hc. rewrite Hc. simpl. now rewrite IH.
Qed.

Lemma split_join_spaces (ws : list string) :
  ws <> [] ->
  Forall (fun w => no_space w = true) ws ->
  map strip (split " " (join_spaces ws)) = ws.
Proof.
  induction ws as [|w ws IH]; [congruence|].
  intros _ Hall. inversion Hall as [|? ? Hw Hws]; subst.
  destruct ws as [|w' ws].
  - simpl. rewrite split_one_word by assumption. simpl.
    now rewrite strip_word.
  - change (join_spaces (w :: w' :: ws))
      with (w ++ String " " (join_spaces (w' :: ws))).
    rewrite split_word_then_space by assumption.
    cbn [map]. rewrite strip_word by assumption.
    rewrite IH by (congruence || assumption). reflexivity.
Qed.

Lemma reformat_filters_join_spaces (w : string) (ws : list string) :
  w <> "" ->
  Forall (fun w => no_space w = true) (w :: ws) ->
  reformat_filters (join_spaces (w :: ws)) = Some (w :: ws).
Proof.
  intros Hne Hall.
  rewrite reformat_filters_not_empty.
  - now rewrite split_join_spaces.
  - destruct w as [|c w]; [congruence|]. destruct ws; discriminate.
Qed.

(** C1, at inputs where the code departs from it.  The specification: a
    filter text that is empty or only whitespace leaves its key out of the
    payload, and any other text binds the key to its non-empty tokens,
    split on whitespace and trimmed.  The code: a single space typed as
    contributor ids binds [contributor_ids] to a list of two empty
    strings; two spaces between two ids give an empty token between
    them; a tab between two ids does not split them. *)
Theorem blank_filter_is_sent_as_empty_tokens :
  reformat_filters " " = Some [""; ""]
  /\ get "contributor_ids" (payload scenario_rows blank_contributor_form)
     = Some (VList [VStr ""; VStr ""])
  /\ reformat_filters "12  34" = Some ["12"; ""; "34"]
  /\ reformat_filters (String "a" (String (ascii_of_nat 9) "b"))
     = Some [String "a" (String (ascii_of_nat 9) "b")].
Proof. repeat split. Qed.

(** C2: the list [requested_metrics] is the concatenation, in table
    order, of what each row contributes: nothing for a row that is not
    selected whatever its value, one [{name}] for a selected row with a
    scalar value, one [{name, agg}] per aggregation kind, in the order of
    the kinds, for a selected row with a list; so its length is the sum
    over the rows of those counts. *)
Theorem requested_metrics_by_row (rows : list MetricRow) :
  requested_metrics rows = flat_map spec_row_entries rows
  /\ List.length (requested_metrics rows) = list_sum (map spec_row_count rows).
Proof.
  assert (E : requested_metrics rows = flat_map spec_row_entries rows).
  { unfold requested_metrics. now rewrite fold_metrics_step. }
  split; [exact E|]. rewrite E. clear E.
  induction rows as [|r rows IH]; simpl; [reflexivity|].
  now rewrite length_app, length_spec_row_entries, IH.
Qed.

(** Whenever service ids are typed, the payload carries the text as it
    was typed: the list that [filters] holds is overwritten by the
    aggregation options. *)
Lemma service_ids_overwritten (rows : list MetricRow) (f : form) :
  service_ids f <> "" ->
  get "service_ids" (filters f)
  = Some (VList (map VStr (map strip (split " " (service_ids f)))))
  /\ get "service_ids" (payload rows f) = Some (VStr (service_ids f)).
Proof.
  intros Hne. rewrite payload_service_ids, get_filters. simpl.
  apply String.eqb_neq in Hne. rewrite Hne.
  rewrite reformat_filters_not_empty by now apply String.eqb_neq.
  split; reflexivity.
Qed.

(** C3, at an input where the code departs from it.  The specification:
    when service ids are typed, the payload's [service_ids] is the list of
    their tokens.  The code: with ["7 8"] typed, [filters] holds the list
    of the two tokens but the payload holds the text ["7 8"] itself. *)
Theorem service_ids_sent_as_text :
  get "service_ids" (filters service_form) = Some (VList [VStr "7"; VStr "8"])
  /\ get "service_ids" (aggregations service_form) = Some (VStr "7 8")
  /\ get "service_ids" (payload scenario_rows service_form) = Some (VStr "7 8").
Proof. repeat split. Qed.

(** The keys of the payload: the two fixed ones, and each filter and
    aggregation option whose entry in the form is truthy. *)
Lemma payload_key_present (k : string) (rows : list MetricRow) (f : form) :
  mem k (payload rows f) =
  fixed_key k
  || match get k (form_fields f) with
     | Some v => truthy v
     | None => false
     end.
Proof.
  unfold mem, fixed_key, form_fields.
  rewrite get_payload, get_aggregations, get_filters. simpl.
  repeat match goal with
         | |- context [(k =? ?lit)%string] =>
             destruct (String.eqb_spec k lit) as [->|?]; simpl
         end;
    repeat match goal with
           | |- context [(?s =? "")%string] => destruct (s =? "")%string; simpl
           | |- context [limit f =? 0] => destruct (limit f =? 0); simpl
           end;
    reflexivity.
Qed.

(** C10: in every payload, each filter and aggregation key that is
    present is bound to a truthy value (never [None], an empty text, an
    empty list or zero), and such a key is present exactly when its entry
    in the form is truthy; [limit] is left out when it is 0 and bound to
    the number otherwise, so 5 appears as 5; and [time_ranges] is present
    with exactly one entry, whose [after] and [before] are texts of the
    shape YYYY-MM-DD that read back as the date chosen as "After" and the
    date chosen as "Before". *)
Theorem payload_optional_keys_and_time_ranges
  (rows : list MetricRow) (f : form)
  (Hafter : picker_date (after f)) (Hbefore : picker_date (before f)) :
  optional_fields_truthy (payload rows f) = true
  /\ (forall k : string,
        mem k (payload rows f)
        = fixed_key k
          || match get k (form_fields f) with
             | Some v => truthy v
             | None => false
             end)
  /\ get "limit" (payload rows f)
     = (if limit f =? 0 then None else Some (VInt (limit f)))
  /\ exists a b : string,
       get "time_ranges" (payload rows f)
       = Some (VList [VDict [("after", VStr a); ("before", VStr b)]])
       /\ is_Ymd a = true /\ is_Ymd b = true
       /\ parse_Ymd a = Some (after f) /\ parse_Ymd b = Some (before f).
Proof.
  split; [apply payload_optional_fields_truthy|].
  split; [intros k; apply payload_key_present|].
  split; [apply payload_limit|].
  exists (strftime_Ymd (after f)), (strftime_Ymd (before f)).
  split; [apply payload_time_ranges|].
  repeat split;
    (now apply strftime_is_Ymd) || (now apply parse_strftime_Ymd).
Qed.

Lemma payload_optional_keys_and_time_ranges_witness :
  picker_date (after scenario_form) /\ picker_date (before scenario_form)
  /\ get "limit" (payload scenario_rows scenario_form) = Some (VInt 2)
  /\ exists a b : string,
       get "time_ranges" (payload scenario_rows scenario_form)
       = Some (VList [VDict [("after", VStr a); ("before", VStr b)]])
       /\ is_Ymd a = true /\ is_Ymd b = true
       /\ parse_Ymd a = Some (mkDate 2024 1 1)
       /\ parse_Ymd b = Some (mkDate 2024 1 31).
Proof.
  assert (Ha : picker_date (after scenario_form))
    by (unfold picker_date; simpl; lia).
  assert (Hb : picker_date (before scenario_form))
    by (unfold picker_date; simpl; lia).
  split; [exact Ha|]. split; [exact Hb|].
  exact (proj2 (proj2 (payload_optional_keys_and_time_ranges
                         scenario_rows scenario_form Ha Hb))).
Defined.

End Builder.

(** ** The API gateway *)

Module GatewayFacts.

Section Calls.

Variable network : request -> result response.
Variable api_token : value.
Variables (method endpoint : string) (params : option dict)
          (json_data : option value) (timeout : Q).

Let call : M value :=
  make_linearb_request network api_token method endpoint params json_data
    timeout.

Let req : request :=
  sent_request api_token method endpoint params json_data timeout.

Lemma call_without_token (t : list event) :
  truthy api_token = false -> call t = (Ok MissingCredential, t).
Proof.
  intros Htok. unfold call, make_linearb_request. now rewrite Htok.
Qed.

Lemma call_with_token (t : list event) :
  truthy api_token = true ->
  call t =
  match network req with
  | Ok resp =>
      match classified resp (t ++ [HttpRequest req])%list with
      | (Ok v, t') => (Ok v, t')
      | (Raise e, t') => (caught e, t')
      end
  | Raise e => (caught e, (t ++ [HttpRequest req])%list)
  end.
Proof.
  intros Htok. unfold call, req, make_linearb_request, sent_request.
  rewrite Htok. cbn [negb]. cbv beta iota zeta.
  unfold try_ at 1. unfold bind at 1. unfold httpx_request.
  unfold bind at 1, emit, lift.
  assert (Hcaught : forall e t',
             handle
               [ (is_RequestError,
                   fun e0 : exn =>
                     ret (VDict [ ("error",
                                    VStr ("HTTP request error: "
                                          ++ class_name e0)%string);
                                  ("details", VStr (str_of_exn e0)) ]));
                 (is_Exception,
                   fun e0 : exn =>
                     ret (VDict [ ("error",
                                    VStr ("An unexpected error occurred: "
                                          ++ class_name e0)%string);
                                  ("details", VStr (str_of_exn e0)) ])) ]
               e t'
             = (caught e, t')).
  { intros e t'. unfold caught. simpl.
    destruct (is_RequestError e); [reflexivity|].
    destruct (is_Exception e); reflexivity. }
  destruct (network _) as [resp|e].
  - unfold classified, NoContent, EmptyBody, DecodeError, HttpError.
    destruct ((200 <=? status_code resp) && (status_code resp <? 300)).
    + destruct (status_code resp =? 204); [reflexivity|].
      destruct (content resp); [reflexivity|].
      destruct (try_ _ _ _) as [[v|e] t']; [reflexivity | apply Hcaught].
    + destruct (bind _ _ _) as [[v|e] t']; [reflexivity | apply Hcaught].
  - apply Hcaught.
Qed.

Lemma classified_json_ok (resp : response) (body : value) (t : list event) :
  json_ resp = Ok body ->
  forall clauses,
    try_ (response_json resp) clauses t
    = (Ok body, (t ++ [ResponseJson resp])%list).
Proof.
  intros Hj clauses. unfold try_, response_json, bind, emit, lift.
  now rewrite Hj.
Qed.

Lemma classified_json_raise (resp : response) (e : exn) (t : list event) :
  json_ resp = Raise e ->
  forall clauses,
    try_ (response_json resp) clauses t
    = handle clauses e (t ++ [ResponseJson resp])%list.
Proof.
  intros Hj clauses. unfold try_, response_json, bind, emit, lift.
  now rewrite Hj.
Qed.

(** C6: with a credential that is empty or missing (any falsy value of the
    secret, in particular the empty text and [None]) the gateway returns
    the error dictionary with [status_code] 401, and the trace of external
    calls is unchanged: no HTTP request is issued. *)
Theorem missing_credential_401_without_io (t : list event) :
  truthy api_token = false ->
  call t = (Ok MissingCredential, t)
  /\ getitem "status_code" MissingCredential = Ok (VInt 401)
  /\ contains "error" MissingCredential = Ok true.
Proof.
  intros Htok. split; [now apply call_without_token|]. split; reflexivity.
Qed.

(** C8: a response with status 204 gives the "no content" message; the
    only external call is the HTTP request itself, so [response.json()] is
    not called and the body is not parsed. *)
Theorem status_204_is_no_content (resp : response) (t : list event) :
  truthy api_token = true ->
  network req = Ok resp ->
  status_code resp = 204 ->
  call t = (Ok NoContent, (t ++ [HttpRequest req])%list).
Proof.
  intros Htok Hnet Hst. unfold call. rewrite call_with_token by assumption.
  fold req. rewrite Hnet. unfold classified. rewrite Hst. reflexivity.
Qed.



(** Whatever happens to a response after [httpx.request] has returned it,
    [classified] either returns or raises what [response.json()] raised. *)
Lemma classified_raises_only_from_json (resp : response) (t : list event)
  (e : exn) (t' : list event) :
  classified resp t = (Raise e, t') ->
  json_ resp = Raise e /\ is_JSONDecodeError e = false.
Proof.
  unfold classified.
  destruct ((200 <=? status_code resp) && (status_code resp <? 300)).
  - destruct (status_code resp =? 204); [discriminate|].
    destruct (content resp); [discriminate|].
    destruct (json_ resp) as [body|e0] eqn:Hj.
    + now rewrite (classified_json_ok _ _ _ Hj).
    + rewrite (classified_json_raise _ _ _ Hj). simpl.
      destruct (is_JSONDecodeError e0) eqn:He; [discriminate|].
      intros [= -> _]. auto.
  - unfold bind at 1.
    destruct (json_ resp) as [body|e0] eqn:Hj.
    + now rewrite (classified_json_ok _ _ _ Hj).
    + rewrite (classified_json_raise _ _ _ Hj). simpl.
      destruct (is_JSONDecodeError e0) eqn:He; [discriminate|].
      intros [= -> _]. auto.
Qed.

(** C5, as the code has it: a call of the gateway returns a value, and
    raises nothing, whenever [httpx.request] and [response.json()] raise
    only exceptions of a class of [Exception].  When [httpx.request]
    raises an error of a class of [httpx.RequestError] (timeout, refused
    connection, DNS, TLS) the value is the "HTTP request error" dictionary
    with the name of the class and the message; when it raises another
    [Exception] the value is the "unexpected error" dictionary with the
    name of the class and the message; when it raises an exception that is
    no [Exception] ([KeyboardInterrupt], [SystemExit]) the exception
    leaves the gateway. *)
Theorem gateway_returns_unless_base_exception (t : list event) :
  ((forall e, network req = Raise e -> is_Exception e = true) ->
   (forall resp e, network req = Ok resp -> json_ resp = Raise e ->
                   is_Exception e = true) ->
   exists (v : value) (t' : list event), call t = (Ok v, t'))
  /\ (forall cls msg,
        truthy api_token = true ->
        network req = Raise (RequestError cls msg) ->
        call t = (Ok (TransportError cls msg), (t ++ [HttpRequest req])%list))
  /\ (forall e,
        truthy api_token = true ->
        network req = Raise e ->
        is_RequestError e = false ->
        is_Exception e = true ->
        call t = (Ok (UnexpectedError (class_name e) (str_of_exn e)),
                  (t ++ [HttpRequest req])%list))
  /\ (forall e,
        truthy api_token = true ->
        network req = Raise e ->
        is_Exception e = false ->
        call t = (Raise e, (t ++ [HttpRequest req])%list)).
Proof.
  assert (Hcaught : forall e, is_Exception e = true -> exists v, caught e = Ok v).
  { intros e He. unfold caught. rewrite He.
    destruct (is_RequestError e); eauto. }
  split; [|split; [|split]].
  - intros Hnet Hjson. destruct (truthy api_token) eqn:Htok.
    + unfold call. rewrite call_with_token by assumption. fold req.
      destruct (network req) as [resp|e] eqn:En.
      * destruct (classified _ _) as [[v|e] t'] eqn:Ec; [eauto|].
        apply classified_raises_only_from_json in Ec. destruct Ec as [Hj _].
        destruct (Hcaught e (Hjson resp e eq_refl Hj)) as [v ->]. eauto.
      * destruct (Hcaught e (Hnet e eq_refl)) as [v ->]. eauto.
    + exists MissingCredential, t. now apply call_without_token.
  - intros cls msg Htok Hnet. unfold call.
    rewrite call_with_token by assumption. fold req. now rewrite Hnet.
  - intros e Htok Hnet Hr He. unfold call.
    rewrite call_with_token by assumption. fold req. rewrite Hnet.
    unfold caught. now rewrite Hr, He.
  - intros e Htok Hnet He. unfold call.
    rewrite call_with_token by assumption. fold req. rewrite Hnet.
    unfold caught. rewrite He. now destruct e.
Qed.

End Calls.

Lemma missing_credential_401_without_io_witness :
  truthy (VStr "") = false
  /\ scenario_call timeout_network (VStr "") [] = (Ok MissingCredential, []).
Proof.
  split; [reflexivity|].
  exact (proj1 (missing_credential_401_without_io timeout_network (VStr "")
                  "POST" ENDPOINT None
                  (Some (VDict (payload scenario_rows scenario_form)))
                  (30 # 1)%Q [] eq_refl)).
Defined.

Lemma status_204_is_no_content_witness :
  scenario_call (answering no_content_response) (VStr "secret") []
  = (Ok NoContent, [HttpRequest (scenario_request (VStr "secret"))]).
Proof.
  exact (status_204_is_no_content (answering no_content_response)
           (VStr "secret") "POST" ENDPOINT None
           (Some (VDict (payload scenario_rows scenario_form))) (30 # 1)%Q
           no_content_response [] eq_refl eq_refl eq_refl).
Defined.

Lemma status_in_range (lo x hi : Z) :
  (lo <=? x) && (x <? hi) = true -> lo <= x < hi.
Proof.
  intros H. apply andb_true_iff in H. destruct H as [H1 H2].
  split; [now apply Z.leb_le | now apply Z.ltb_lt].
Defined.





Lemma gateway_returns_unless_base_exception_witness :
  (exists (v : value) (t' : list event),
     scenario_call timeout_network (VStr "secret") [] = (Ok v, t'))
  /\ scenario_call timeout_network (VStr "secret") []
     = (Ok (TransportError "ConnectTimeout" "timed out"),
        [HttpRequest (scenario_request (VStr "secret"))])
  /\ scenario_call broken_network (VStr "secret") []
     = (Ok (UnexpectedError "InvalidURL"
              "Invalid non-printable ASCII character in URL"),
        [HttpRequest (scenario_request (VStr "secret"))])
  /\ scenario_call interrupted_network (VStr "secret") []
     = (Raise (BaseExceptionOnly "KeyboardInterrupt" ""),
        [HttpRequest (scenario_request (VStr "secret"))]).
Proof.
  split; [|split; [|split]].
  - refine (proj1 (gateway_returns_unless_base_exception timeout_network
                     (VStr "secret") "POST" ENDPOINT None
                     (Some (VDict (payload scenario_rows scenario_form)))
                     (30 # 1)%Q []) _ _).
    + intros e [= <-]. reflexivity.
    + intros resp e [=].
  - exact (proj1 (proj2 (gateway_returns_unless_base_exception timeout_network
                           (VStr "secret") "POST" ENDPOINT None
                           (Some (VDict (payload scenario_rows scenario_form)))
                           (30 # 1)%Q []))
                 "ConnectTimeout" "timed out" eq_refl eq_refl).
  - exact (proj1 (proj2 (proj2 (gateway_returns_unless_base_exception
                           broken_network (VStr "secret")
                           "POST" ENDPOINT None
                           (Some (VDict (payload scenario_rows scenario_form)))
                           (30 # 1)%Q [])))
                 (OtherException "InvalidURL"
                    "Invalid non-printable ASCII character in URL")
                 eq_refl eq_refl eq_refl eq_refl).
  - exact (proj2 (proj2 (proj2 (gateway_returns_unless_base_exception
                           interrupted_network (VStr "secret")
                           "POST" ENDPOINT None
                           (Some (VDict (payload scenario_rows scenario_form)))
                           (30 # 1)%Q [])))
                 (BaseExceptionOnly "KeyboardInterrupt" "")
                 eq_refl eq_refl eq_refl).
Defined.

(** C5 as the specification states it fails here: a request interrupted
    from the keyboard raises [KeyboardInterrupt], which [except Exception]
    does not catch, so the call returns no value: the exception leaves the
    gateway. *)
Lemma keyboard_interrupt_leaves_the_gateway :
  scenario_call interrupted_network (VStr "secret") []
  = (Raise (BaseExceptionOnly "KeyboardInterrupt" ""),
     [HttpRequest (scenario_request (VStr "secret"))])
  /\ ~ exists (v : value) (t' : list event),
        scenario_call interrupted_network (VStr "secret") [] = (Ok v, t').
Proof.
  split; [reflexivity|]. intros (v & t' & H). discriminate H.
Qed.

End GatewayFacts.

(** ** The handler of the result *)

Module HandlerFacts.

(** On a dictionary, [show_result] shows the error when there is one and
    then, in every case, looks [report_url] up. *)
Lemma show_result_dict (d : dict) (t : list event) :
  show_result (VDict d) t =
  let t1 :=
    match get "error" d with
    | Some body => (t ++ [StError body])%list
    | None => t
    end in
  match get "report_url" d with
  | Some url => st_link_button "Download data" url t1
  | None => (Raise KeyError_report_url, t1)
  end.
Proof.
  unfold show_result, bind, lift, emit, ret, contains, getitem, mem.
  destruct (get "error" d) as [body|];
    destruct (get "report_url" d) as [url|]; reflexivity.
Qed.

(** A result with an ["error"] key and no ["report_url"] key: the error is
    shown and the look-up of [report_url] then raises [KeyError]. *)
Lemma show_result_error_raises (d : dict) (body : value) (t : list event) :
  get "error" d = Some body ->
  get "report_url" d = None ->
  show_result (VDict d) t = (Raise KeyError_report_url, (t ++ [StError body])%list).
Proof.
  intros He Hu. rewrite show_result_dict, He, Hu. reflexivity.
Qed.

(** None of the dictionaries that the gateway builds itself has a
    ["report_url"] key, so the handler raises on each of them. *)
Lemma show_result_raises_on_gateway_dicts
  (status : Z) (raw kind message : string) (details : value) (t : list event) :
  Forall (fun r => fst (show_result r t) = Raise KeyError_report_url)
    [ MissingCredential; NoContent; EmptyBody status; DecodeError status raw;
      HttpError status details; TransportError kind message;
      UnexpectedError kind message ].
Proof.
  repeat constructor.
Qed.

(** C4, at inputs where the code departs from it.  The specification: for
    a result that carries an ["error"] key the handler shows the error and
    stops, without reading [report_url].  The code: it shows the error and then
    reads [report_url] all the same, which raises [KeyError]: on the
    dictionary returned for a missing credential, and in a whole run in
    which the server answers 404. *)
Theorem error_result_still_reads_report_url :
  show_result MissingCredential []
  = (Raise KeyError_report_url, [StError (VStr "LinearB API Key is required.")])
  /\ on_extract (answering not_found_response) (VStr "secret")
       scenario_rows scenario_form []
     = (Raise KeyError_report_url,
        [ FileDump "payload.json" (VDict (payload scenario_rows scenario_form));
          StJson (VDict (payload scenario_rows scenario_form));
          HttpRequest (scenario_request (VStr "secret"));
          ResponseJson not_found_response;
          StError (VStr "API request failed.") ]).
Proof. split; reflexivity. Qed.

(** The run that the handler is written for: the server answers 200 with a
    body that has a [report_url], and the link is shown. *)
Example report_link_is_shown :
  on_extract (answering report_response) (VStr "secret")
    scenario_rows scenario_form []
  = (Ok tt,
     [ FileDump "payload.json" (VDict (payload scenario_rows scenario_form));
       StJson (VDict (payload scenario_rows scenario_form));
       HttpRequest (scenario_request (VStr "secret"));
       ResponseJson report_response;
       StLinkButton "Download data" (VStr "https://x/r.csv") ]).
Proof. reflexivity. Qed.

End HandlerFacts.

(** * Properties beyond the specification *)

(** ** More on [reformat_filters] *)

Module FilterFacts.

Lemma length_split (sep : ascii) (s : string) :
  List.length (split sep s) = S (count_char sep s).
Proof.
  induction s as [|c s IH]; simpl; [reflexivity|].
  destruct (Ascii.eqb c sep); simpl.
  - now rewrite IH.
  - destruct (split sep s) as [|w ws]; simpl in *; [discriminate | exact IH].
Qed.

Lemma reformat_filters_Some (s : string) (ts : list string) :
  reformat_filters s = Some ts -> ts = map strip (split " " s).
Proof.
  destruct s as [|c s]; [discriminate|].
  rewrite Builder.reformat_filters_not_empty by discriminate.
  now intros [= <-].
Qed.

(** X1: a text that is not empty gives one token more than it has space
    characters: nothing is dropped and nothing is merged. *)
Theorem reformat_filters_token_count (s : string) :
  s <> "" ->
  exists ts : list string,
    reformat_filters s = Some ts
    /\ List.length ts = S (count_char " " s).
Proof.
  intros Hne. exists (map strip (split " " s)). split.
  - now apply Builder.reformat_filters_not_empty.
  - now rewrite length_map, length_split.
Qed.

Lemma reformat_filters_token_count_witness :
  "12  34" <> ""
  /\ exists ts : list string,
       reformat_filters "12  34" = Some ts /\ List.length ts = 3%nat.
Proof.
  assert (Hne : "12  34" <> "") by discriminate.
  split; [exact Hne|].
  exact (reformat_filters_token_count "12  34" Hne).
Defined.

Lemma split_has_no_sep (sep : ascii) (s : string) :
  Forall (fun p => has_char sep p = false) (split sep s).
Proof.
  unfold has_char. induction s as [|c s IH]; simpl.
  - repeat constructor.
  - destruct (Ascii.eqb c sep) eqn:E.
    + constructor; [reflexivity | exact IH].
    + destruct (split sep s) as [|w ws]; [repeat constructor; simpl; now rewrite E|].
      inversion IH as [|? ? Hw Hws]; subst.
      constructor; [simpl; now rewrite E | assumption].
Qed.

Lemma has_char_lstrip (c : ascii) (s : string) :
  has_char c s = false -> has_char c (lstrip s) = false.
Proof.
  unfold has_char. induction s as [|c' s IH]; simpl; [reflexivity|].
  intros H. apply orb_false_iff in H. destruct H as [Hc Hs].
  destruct (isspace c'); [auto|]. simpl. now rewrite Hc, Hs.
Qed.

Lemma has_char_rstrip (c : ascii) (s : string) :
  has_char c s = false -> has_char c (rstrip s) = false.
Proof.
  unfold has_char. induction s as [|c' s IH]; simpl; [reflexivity|].
  intros H. apply orb_false_iff in H. destruct H as [Hc Hs].
  destruct (isspace c' && (rstrip s =? "")%string); [reflexivity|].
  simpl. rewrite Hc. simpl. auto.
Qed.

Lemma rstrip_idempotent (s : string) : rstrip (rstrip s) = rstrip s.
Proof.
  induction s as [|c s IH]; simpl; [reflexivity|].
  destruct (isspace c && (rstrip s =? "")%string) eqn:E; [reflexivity|].
  simpl. now rewrite IH, E.
Qed.

Lemma lstrip_rstrip_lstrip (s : string) :
  lstrip (rstrip (lstrip s)) = rstrip (lstrip s).
Proof.
  induction s as [|c s IH]; simpl; [reflexivity|].
  destruct (isspace c) eqn:E; [exact IH|].
  simpl. rewrite E. simpl. now rewrite E.
Qed.

Lemma strip_idempotent (s : string) : strip (strip s) = strip s.
Proof.
  unfold strip. now rewrite lstrip_rstrip_lstrip, rstrip_idempotent.
Qed.

(** X2: no token that [reformat_filters] returns contains a space, and
    none has whitespace at either end: stripping it again changes
    nothing. *)
Theorem reformat_filters_tokens_clean (s : string) (ts : list string) :
  reformat_filters s = Some ts ->
  Forall (fun t => has_char " " t = false /\ strip t = t) ts.
Proof.
  intros H. apply reformat_filters_Some in H. subst ts.
  apply Forall_map.
  eapply Forall_impl; [|apply (split_has_no_sep " " s)].
  intros p Hp. split.
  - unfold strip. now apply has_char_rstrip, has_char_lstrip.
  - apply strip_idempotent.
Qed.

Lemma reformat_filters_tokens_clean_witness :
  reformat_filters " 12  34 " = Some [""; "12"; ""; "34"; ""]
  /\ Forall (fun t => has_char " " t = false /\ strip t = t)
            [""; "12"; ""; "34"; ""].
Proof.
  assert (H : reformat_filters " 12  34 " = Some [""; "12"; ""; "34"; ""])
    by reflexivity.
  split; [exact H|].
  exact (reformat_filters_tokens_clean " 12  34 " _ H).
Defined.

Lemma join_spaces_cons (w : string) (ws : list string) :
  ws <> [] ->
  join_spaces (w :: ws) = (w ++ String " " (join_spaces ws))%string.
Proof. destruct ws; [congruence | reflexivity]. Qed.

Lemma join_spaces_head (c : ascii) (w : string) (ws : list string) :
  join_spaces (String c w :: ws) = String c (join_spaces (w :: ws)).
Proof. destruct ws; reflexivity. Qed.

(** Joining the pieces of [split] with the separator gives the text back. *)
Lemma join_spaces_split (s : string) : join_spaces (split " " s) = s.
Proof.
  induction s as [|c s IH]; [reflexivity|].
  cbn [split].
  pose proof (Builder.split_not_nil " " s) as Hne.
  destruct (Ascii.eqb_spec c " ") as [->|_].
  - rewrite join_spaces_cons by assumption. now rewrite IH.
  - destruct (split " " s) as [|w ws]; [congruence|].
    rewrite join_spaces_head. now rewrite IH.
Qed.

Lemma split_only_space_whitespace (s : string) :
  only_space_whitespace s = true ->
  Forall (fun p => no_space p = true) (split " " s).
Proof.
  unfold only_space_whitespace, no_space.
  induction s as [|c s IH]; simpl; intros H.
  - repeat constructor.
  - apply andb_true_iff in H. destruct H as [Hc Hs].
    specialize (IH Hs).
    destruct (Ascii.eqb c " ") eqn:E.
    + constructor; [reflexivity | exact IH].
    + rewrite orb_false_r in Hc.
      destruct (split " " s) as [|w ws].
      * repeat constructor. simpl. now rewrite Hc.
      * inversion IH as [|? ? Hw Hws]; subst.
        constructor; [simpl; now rewrite Hc, Hw | assumption].
Qed.

(** X3: for a text that is not empty and whose only whitespace is the
    space character, joining the returned tokens with single spaces gives
    the text back: the tokens lose nothing of what was typed. *)
Theorem reformat_filters_join_round_trip (s : string) :
  s <> "" ->
  only_space_whitespace s = true ->
  exists ts : list string,
    reformat_filters s = Some ts /\ join_spaces ts = s.
Proof.
  intros Hne Hws. exists (map strip (split " " s)). split.
  - now apply Builder.reformat_filters_not_empty.
  - assert (E : map strip (split " " s) = split " " s).
    { pose proof (split_only_space_whitespace s Hws) as Hall.
      induction Hall as [|p ps Hp _ IH]; [reflexivity|].
      simpl. now rewrite Builder.strip_word, IH. }
    rewrite E. apply join_spaces_split.
Qed.

Lemma reformat_filters_join_round_trip_witness :
  exists ts : list string,
    reformat_filters " 12  34" = Some ts /\ join_spaces ts = " 12  34".
Proof.
  assert (Hne : " 12  34" <> "") by discriminate.
  exact (reformat_filters_join_round_trip " 12  34" Hne eq_refl).
Defined.

(** X4: ids without whitespace, typed with one space between them, are
    returned as they were typed. *)
Theorem reformat_filters_of_joined_ids (w : string) (ws : list string) :
  w <> "" ->
  Forall (fun w => no_space w = true) (w :: ws) ->
  reformat_filters (join_spaces (w :: ws)) = Some (w :: ws).
Proof.
  intros Hne Hall. rewrite Builder.reformat_filters_not_empty.
  - now rewrite Builder.split_join_spaces.
  - destruct w as [|c w]; [congruence|]. destruct ws; discriminate.
Qed.

Lemma reformat_filters_of_joined_ids_witness :
  reformat_filters "12 34 56" = Some ["12"; "34"; "56"].
Proof.
  assert (Hne : "12" <> "") by discriminate.
  assert (Hall : Forall (fun w => no_space w = true) ["12"; "34"; "56"])
    by (repeat constructor).
  exact (reformat_filters_of_joined_ids "12" ["34"; "56"] Hne Hall).
Defined.

End FilterFacts.

(** ** More on the request builder *)

Module PayloadFacts.

Import DictFacts.

(** X5: [filters] binds a key exactly when it is the key of one of the
    five filters and the text of that filter is not empty, and it binds it
    to the list of the stripped pieces of that text. *)
Theorem filters_bindings (f : form) (k : string) (v : value) :
  get k (filters f) = Some v
  <-> exists s : string,
        In (k, s) (filter_texts f) /\ s <> "" /\ v = token_list s.
Proof.
  rewrite Builder.get_filters. unfold filter_texts, token_list. simpl.
  split.
  - repeat match goal with
           | |- context [(k =? ?lit)%string] =>
               destruct (String.eqb_spec k lit) as [->|?]
           end;
      try discriminate;
      match goal with
      | |- context [(?s =? "")%string] =>
          destruct (String.eqb_spec s "") as [E|E]; [discriminate|];
          rewrite Builder.reformat_filters_not_empty by assumption;
          intros [= <-]; exists s; simpl; tauto
      end.
  - intros (s & HIn & Hne & ->).
    apply String.eqb_neq in Hne.
    repeat destruct HIn as [[= <- <-]|HIn]; try contradiction;
      simpl; rewrite Hne;
      rewrite Builder.reformat_filters_not_empty
        by (now apply String.eqb_neq); reflexivity.
Qed.

Lemma filters_bindings_witness :
  get "team_ids" (filters scenario_form) = Some (VList [VStr "12"; VStr "34"])
  /\ get "labels" (filters scenario_form) = None.
Proof.
  split.
  - apply (proj2 (filters_bindings scenario_form "team_ids"
                    (VList [VStr "12"; VStr "34"]))).
    exists "12 34". split; [simpl; tauto|]. split; [discriminate | reflexivity].
  - reflexivity.
Defined.

(** X6: a payload never has a key outside the ten of [payload_keys], and
    it always has [requested_metrics] and [time_ranges]. *)
Theorem payload_key_set (rows : list MetricRow) (f : form) :
  (forall k : string, mem k (payload rows f) = true -> In k payload_keys)
  /\ mem "requested_metrics" (payload rows f) = true
  /\ mem "time_ranges" (payload rows f) = true.
Proof.
  split; [|split].
  - intros k. rewrite Builder.payload_key_present.
    unfold fixed_key, form_fields, payload_keys. simpl.
    repeat match goal with
           | |- context [(k =? ?lit)%string] =>
               destruct (String.eqb_spec k lit) as [->|?];
               [intros _; simpl; tauto|]
           end.
    discriminate.
  - now rewrite Builder.payload_key_present.
  - now rewrite Builder.payload_key_present.
Qed.

Lemma payload_key_set_witness :
  mem "team_ids" (payload scenario_rows scenario_form) = true
  /\ In "team_ids" payload_keys.
Proof.
  assert (H : mem "team_ids" (payload scenario_rows scenario_form) = true)
    by reflexivity.
  split; [exact H|].
  exact (proj1 (payload_key_set scenario_rows scenario_form) "team_ids" H).
Defined.

(** X7: how the two updates compose.  A key of [aggregations] wins; else
    a key of [filters]; else the key is one of the two fixed ones.  So the
    four filters other than [service_ids] reach the payload as [filters]
    holds them. *)
Theorem payload_merge_order (rows : list MetricRow) (f : form) (k : string) :
  get k (payload rows f)
  = match get k (aggregations f) with
    | Some v => Some v
    | None =>
        match get k (filters f) with
        | Some v => Some v
        | None =>
            if (k =? "requested_metrics")%string
            then Some (VList (requested_metrics rows))
            else if (k =? "time_ranges")%string
            then Some (VList [ VDict
                                 [ ("after", VStr (strftime_Ymd (after f)));
                                   ("before", VStr (strftime_Ymd (before f))) ] ])
            else None
        end
    end
  /\ (In k ["contributor_ids"; "team_ids"; "repository_ids"; "labels"] ->
      get k (payload rows f) = get k (filters f)).
Proof.
  split; [apply Builder.get_payload|].
  intros HIn. rewrite Builder.get_payload, Builder.get_aggregations.
  repeat destruct HIn as [<-|HIn]; try contradiction; simpl;
    match goal with
    | |- context [get ?k (filters f)] =>
        destruct (get k (filters f)) as [v|] eqn:E; [reflexivity|];
        rewrite Builder.get_filters in E; simpl in E
    end; reflexivity.
Qed.

Lemma payload_merge_order_witness :
  In "team_ids" ["contributor_ids"; "team_ids"; "repository_ids"; "labels"]
  /\ get "team_ids" (payload scenario_rows service_form)
     = get "team_ids" (filters service_form).
Proof.
  assert (H : In "team_ids"
                ["contributor_ids"; "team_ids"; "repository_ids"; "labels"])
    by (simpl; tauto).
  split; [exact H|].
  exact (proj2 (payload_merge_order scenario_rows service_form "team_ids") H).
Defined.

End PayloadFacts.

(** ** More on the list of requested metrics *)

Module MetricsFacts.

Lemma requested_metrics_flat_map (rows : list MetricRow) :
  requested_metrics rows = flat_map spec_row_entries rows.
Proof. unfold requested_metrics. now rewrite Builder.fold_metrics_step. Qed.

(** X8: when no row of the table is selected the list of requested metrics
    is empty, and the payload still carries it, as an empty list: the
    builder does not refuse such a request. *)
Theorem nothing_selected (rows : list MetricRow) (f : form) :
  (forall r, In r rows -> row_selected r = false) ->
  requested_metrics rows = []
  /\ get "requested_metrics" (payload rows f) = Some (VList []).
Proof.
  intros Hnone.
  assert (E : requested_metrics rows = []).
  { rewrite requested_metrics_flat_map.
    induction rows as [|r rows IH]; simpl; [reflexivity|].
    rewrite IH by (intros r' Hr'; apply Hnone; now right).
    unfold spec_row_entries. rewrite (Hnone r) by now left. reflexivity. }
  split; [exact E|]. now rewrite Builder.payload_requested_metrics, E.
Qed.

Lemma nothing_selected_witness :
  get "requested_metrics"
    (payload [mkRow "deploy_frequency" false (CList ["avg"])] scenario_form)
  = Some (VList []).
Proof.
  refine (proj2 (nothing_selected
                   [mkRow "deploy_frequency" false (CList ["avg"])]
                   scenario_form _)).
  intros r [<-|[]]. reflexivity.
Defined.

(** X9: the rows are handled one by one: the requested metrics of two
    tables put one after the other are those of the first followed by
    those of the second. *)
Theorem requested_metrics_app (rows1 rows2 : list MetricRow) :
  requested_metrics (rows1 ++ rows2)
  = (requested_metrics rows1 ++ requested_metrics rows2)%list.
Proof.
  rewrite !requested_metrics_flat_map. apply flat_map_app.
Qed.

Lemma metric_names_flat_map {A : Type} (g : A -> list value) (l : list A)
  (n : string) :
  In n (metric_names (flat_map g l))
  <-> exists a, In a l /\ In n (metric_names (g a)).
Proof.
  unfold metric_names. rewrite flat_map_concat_map.
  rewrite <- flat_map_concat_map. rewrite in_flat_map.
  split.
  - intros (e & He & Hn). apply in_flat_map in He.
    destruct He as (a & Ha & He). exists a. split; [assumption|].
    apply in_flat_map. eauto.
  - intros (a & Ha & Hn). apply in_flat_map in Hn.
    destruct Hn as (e & He & Hn). exists e. split; [|assumption].
    apply in_flat_map. eauto.
Qed.

Lemma metric_names_row (r : MetricRow) (n : string) :
  In n (metric_names (spec_row_entries r))
  <-> row_selected r = true /\ row_value r <> CList [] /\ row_name r = n.
Proof.
  unfold spec_row_entries.
  destruct (row_selected r); [|simpl; intuition discriminate].
  destruct (row_value r) as [|kinds].
  - simpl. intuition discriminate.
  - destruct kinds as [|kind kinds].
    + simpl. intuition congruence.
    + split.
      * intros H. repeat split; [discriminate|].
        unfold metric_names in H. apply in_flat_map in H.
        destruct H as (e & He & Hn). apply in_map_iff in He.
        destruct He as (kind' & <- & _). simpl in Hn. tauto.
      * intros (_ & _ & <-). simpl. now left.
Qed.

(** X10: the names that occur in the requested metrics are exactly the
    names of the selected rows whose value is not an empty list of
    aggregation kinds: an unselected row never shows, and a selected row
    with an empty list is silently left out. *)
Theorem requested_metric_names (rows : list MetricRow) (n : string) :
  In n (metric_names (requested_metrics rows))
  <-> exists r : MetricRow,
        In r rows /\ row_selected r = true /\ row_value r <> CList []
        /\ row_name r = n.
Proof.
  rewrite requested_metrics_flat_map, metric_names_flat_map.
  split; intros (r & Hr & H); exists r; (split; [assumption|]);
    now apply metric_names_row.
Qed.

Lemma requested_metric_names_witness :
  In "cycle_time" (metric_names (requested_metrics scenario_rows))
  /\ ~ In "deploy_frequency" (metric_names (requested_metrics scenario_rows)).
Proof.
  split.
  - apply (proj2 (requested_metric_names scenario_rows "cycle_time")).
    exists (mkRow "cycle_time" true (CList ["p75"; "avg"])).
    split; [simpl; tauto|]. split; [reflexivity|].
    split; [discriminate | reflexivity].
  - intros H.
    apply (proj1 (requested_metric_names scenario_rows "deploy_frequency")) in H.
    destruct H as (r & [<-|[<-|[]]] & Hsel & _ & Hname); discriminate.
Defined.

End MetricsFacts.

(** ** More on the API gateway *)

Module GatewayMore.

Import DictFacts.

Lemma drop_none_In (d : dict) (k : string) (v : value) :
  In (k, v) (drop_none d) <-> In (k, v) d /\ v <> VNone.
Proof.
  unfold drop_none. rewrite filter_In. simpl.
  destruct v; intuition congruence.
Qed.

Lemma drop_none_id (d : dict) :
  (forall k v, In (k, v) d -> v <> VNone) -> drop_none d = d.
Proof.
  unfold drop_none. induction d as [|[k v] d IH]; simpl; intros H.
  - reflexivity.
  - rewrite IH by (intros k' v' HIn; apply (H k'); now right).
    specialize (H k v (or_introl eq_refl)).
    destruct v; congruence.
Qed.

(** X11: what the gateway sends as body and as query.  From a dictionary
    it sends exactly the bindings whose value is not [None]; a body that is
    not a dictionary (a list, even one with [None] in it) is sent as it
    is; a missing body or query stays missing. *)
Theorem sanitation_of_body_and_query
  (api_token : value) (method endpoint : string) (params : option dict)
  (json_data : option value) (timeout : Q) :
  let r := sent_request api_token method endpoint params json_data timeout in
  (forall d, json_data = Some (VDict d) ->
     exists d', req_json r = Some (VDict d')
       /\ forall k v, In (k, v) d' <-> In (k, v) d /\ v <> VNone)
  /\ (forall v, (forall d, v <> VDict d) -> json_data = Some v ->
        req_json r = Some v)
  /\ (json_data = None -> req_json r = None)
  /\ (forall d, params = Some d ->
        exists d', req_params r = Some d'
          /\ forall k v, In (k, v) d' <-> In (k, v) d /\ v <> VNone)
  /\ (params = None -> req_params r = None).
Proof.
  simpl. repeat split.
  - intros d ->. exists (drop_none d). split; [reflexivity|].
    intros k v. apply drop_none_In.
  - intros v Hv ->. destruct v; try reflexivity. now destruct (Hv l).
  - now intros ->.
  - intros d ->. exists (drop_none d). split.
    + destruct d; reflexivity.
    + intros k v. apply drop_none_In.
  - now intros ->.
Qed.

Lemma sanitation_of_body_and_query_witness :
  req_json (sent_request (VStr "secret") "POST" ENDPOINT None
              (Some (VList [VNone; VInt 1])) (30 # 1)%Q)
  = Some (VList [VNone; VInt 1])
  /\ exists d',
       req_json (sent_request (VStr "secret") "POST" ENDPOINT None
                   (Some (VDict [("a", VNone); ("b", VInt 1)])) (30 # 1)%Q)
       = Some (VDict d')
       /\ forall k v,
            In (k, v) d' <-> In (k, v) [("a", VNone); ("b", VInt 1)] /\ v <> VNone.
Proof.
  split.
  - refine (proj1 (proj2 (sanitation_of_body_and_query (VStr "secret") "POST"
                            ENDPOINT None (Some (VList [VNone; VInt 1]))
                            (30 # 1)%Q)) _ _ eq_refl).
    discriminate.
  - exact (proj1 (sanitation_of_body_and_query (VStr "secret") "POST"
                    ENDPOINT None
                    (Some (VDict [("a", VNone); ("b", VInt 1)])) (30 # 1)%Q)
                 _ eq_refl).
Defined.

Lemma payload_has_no_None (rows : list MetricRow) (f : form)
  (k : string) (v : value) :
  In (k, v) (payload rows f) -> v <> VNone.
Proof.
  intros HIn.
  pose proof (Builder.payload_optional_fields_truthy rows f) as Hall.
  unfold optional_fields_truthy in Hall. rewrite forallb_forall in Hall.
  specialize (Hall _ HIn). simpl in Hall.
  apply In_get in HIn; [|apply Builder.NoDup_keys_payload].
  apply orb_true_iff in Hall. destruct Hall as [Hk|Hv].
  - unfold fixed_key in Hk. apply orb_true_iff in Hk.
    destruct Hk as [Hk|Hk]; apply String.eqb_eq in Hk; subst k.
    + rewrite Builder.payload_requested_metrics in HIn. congruence.
    + rewrite Builder.payload_time_ranges in HIn. congruence.
  - intros ->. discriminate.
Qed.

(** X12: the payload goes through the gateway untouched: the body of the
    request is the payload that the builder made, whatever was entered in
    the form. *)
Theorem payload_is_sent_unchanged
  (api_token : value) (rows : list MetricRow) (f : form) :
  req_json (sent_request api_token "POST" ENDPOINT None
              (Some (VDict (payload rows f))) (30 # 1)%Q)
  = Some (VDict (payload rows f)).
Proof.
  simpl. rewrite drop_none_id; [reflexivity|].
  apply payload_has_no_None.
Qed.

Section Trace.

Variable network : request -> result response.
Variable api_token : value.
Variables (method endpoint : string) (params : option dict)
          (json_data : option value) (timeout : Q).

Let call : M value :=
  make_linearb_request network api_token method endpoint params json_data
    timeout.

Let req : request :=
  sent_request api_token method endpoint params json_data timeout.

Lemma classified_outcome (resp : response) (t : list event) :
  classified resp t =
  if json_is_called resp then
    match json_ resp with
    | Ok body =>
        (Ok (if (200 <=? status_code resp) && (status_code resp <? 300)
             then body else HttpError (status_code resp) body),
         (t ++ [ResponseJson resp])%list)
    | Raise e =>
        if is_JSONDecodeError e then
          (Ok (if (200 <=? status_code resp) && (status_code resp <? 300)
               then DecodeError (status_code resp) (text resp)
               else HttpError (status_code resp) (VStr (text resp))),
           (t ++ [ResponseJson resp])%list)
        else (Raise e, (t ++ [ResponseJson resp])%list)
    end
  else
    (Ok (if status_code resp =? 204 then NoContent
         else EmptyBody (status_code resp)), t).
Proof.
  unfold classified, json_is_called.
  destruct ((200 <=? status_code resp) && (status_code resp <? 300)).
  - destruct (status_code resp =? 204); [reflexivity|].
    destruct (content resp); [reflexivity|]. simpl.
    destruct (json_ resp) as [body|e] eqn:Hj.
    + now rewrite (GatewayFacts.classified_json_ok _ _ _ Hj).
    + rewrite (GatewayFacts.classified_json_raise _ _ _ Hj). simpl.
      destruct (is_JSONDecodeError e); reflexivity.
  - unfold bind at 1.
    destruct (json_ resp) as [body|e] eqn:Hj.
    + now rewrite (GatewayFacts.classified_json_ok _ _ _ Hj).
    + rewrite (GatewayFacts.classified_json_raise _ _ _ Hj). simpl.
      destruct (is_JSONDecodeError e); reflexivity.
Qed.

(** The whole of a call that got a response. *)
Lemma call_outcome (resp : response) (t : list event) :
  truthy api_token = true ->
  network req = Ok resp ->
  call t =
  if json_is_called resp then
    (match json_ resp with
     | Ok body =>
         Ok (if (200 <=? status_code resp) && (status_code resp <? 300)
             then body else HttpError (status_code resp) body)
     | Raise e =>
         if is_JSONDecodeError e then
           Ok (if (200 <=? status_code resp) && (status_code resp <? 300)
               then DecodeError (status_code resp) (text resp)
               else HttpError (status_code resp) (VStr (text resp)))
         else caught e
     end,
     (t ++ [HttpRequest req; ResponseJson resp])%list)
  else
    (Ok (if status_code resp =? 204 then NoContent
         else EmptyBody (status_code resp)),
     (t ++ [HttpRequest req])%list).
Proof.
  intros Htok Hnet. unfold call.
  rewrite GatewayFacts.call_with_token by assumption.
  fold req. rewrite Hnet, classified_outcome.
  destruct (json_is_called resp); [|reflexivity].
  rewrite <- app_assoc. cbn [app].
  destruct (json_ resp) as [body|e]; [reflexivity|].
  destruct (is_JSONDecodeError e); reflexivity.
Qed.

Lemma call_no_response (e : exn) (t : list event) :
  truthy api_token = true ->
  network req = Raise e ->
  call t = (caught e, (t ++ [HttpRequest req])%list).
Proof.
  intros Htok Hnet. unfold call.
  rewrite GatewayFacts.call_with_token by assumption.
  fold req. now rewrite Hnet.
Qed.

(** X13: the external calls of one call of the gateway.  Without a
    credential there is none.  With one there is exactly one HTTP request,
    which carries the credential in its [x-api-key] header and is never
    repeated, followed by at most one call of [response.json()], made
    exactly when the status is outside 200 to 299 or the body of a
    response other than 204 is not empty. *)
Theorem external_calls_of_a_call (t : list event) :
  get "x-api-key" (req_headers req) = Some api_token
  /\ (truthy api_token = false -> snd (call t) = t)
  /\ (forall e, truthy api_token = true -> network req = Raise e ->
        snd (call t) = (t ++ [HttpRequest req])%list)
  /\ (forall resp, truthy api_token = true -> network req = Ok resp ->
        snd (call t)
        = (t ++ HttpRequest req
                :: if json_is_called resp then [ResponseJson resp] else [])%list).
Proof.
  split; [reflexivity|]. split; [|split].
  - intros Htok. unfold call.
    now rewrite GatewayFacts.call_without_token.
  - intros e Htok Hnet. now rewrite (call_no_response e) by assumption.
  - intros resp Htok Hnet. rewrite (call_outcome resp) by assumption.
    destruct (json_is_called resp); reflexivity.
Qed.

(** X14: an error of [response.json()] that is not a
    [json.JSONDecodeError] (a body that is not valid UTF-8 raises
    [UnicodeDecodeError]) goes to the outer handlers: it comes back as the
    "unexpected error" dictionary when its class is one of [Exception], as
    the "HTTP request error" one when its class is one of
    [httpx.RequestError], never as the "failed to decode" one, and it
    leaves the gateway when it is no [Exception] at all. *)
Theorem other_json_errors_are_caught
  (resp : response) (e : exn) (t : list event) :
  truthy api_token = true ->
  network req = Ok resp ->
  json_is_called resp = true ->
  json_ resp = Raise e ->
  is_JSONDecodeError e = false ->
  call t
  = (if is_RequestError e
     then Ok (TransportError (class_name e) (str_of_exn e))
     else if is_Exception e
          then Ok (UnexpectedError (class_name e) (str_of_exn e))
          else Raise e,
     (t ++ [HttpRequest req; ResponseJson resp])%list).
Proof.
  intros Htok Hnet Hcalled Hj He.
  rewrite (call_outcome resp) by assumption.
  now rewrite Hcalled, Hj, He.
Qed.

(** X15: every value that the gateway returns is one of the seven
    dictionaries it builds itself, or else the parsed body of a response
    with a status from 200 to 299 other than 204 and a body that is not
    empty. *)
Theorem gateway_result_cases (t t' : list event) (v : value) :
  call t = (Ok v, t') ->
  built_by_gateway v
  \/ exists resp,
       truthy api_token = true
       /\ network req = Ok resp
       /\ 200 <= status_code resp < 300
       /\ status_code resp <> 204
       /\ content resp <> []
       /\ json_ resp = Ok v.
Proof.
  unfold built_by_gateway.
  destruct (truthy api_token) eqn:Htok.
  2:{ unfold call. rewrite GatewayFacts.call_without_token by assumption.
      intros [= <- _]. now do 2 left. }
  destruct (network req) as [resp|e] eqn:Hnet.
  2:{ rewrite (call_no_response e) by assumption. unfold caught.
      destruct (is_RequestError e); [|destruct (is_Exception e)];
        intros [= <- _]; left; do 5 right; [left|right]; eauto. }
  rewrite (call_outcome resp) by assumption. unfold json_is_called, caught.
  destruct ((200 <=? status_code resp) && (status_code resp <? 300)) eqn:E2.
  - destruct (status_code resp =? 204) eqn:E204.
    { intros [= <- _]. left. right. now left. }
    destruct (content resp) as [|b bs] eqn:Ec.
    { intros [= <- _]. left. do 2 right. left. eauto. }
    simpl. destruct (json_ resp) as [body|e] eqn:Hj.
    + intros [= <- _]. right. exists resp.
      apply andb_true_iff in E2. destruct E2 as [Hlo Hhi].
      apply Z.leb_le in Hlo. apply Z.ltb_lt in Hhi. apply Z.eqb_neq in E204.
      rewrite Ec. repeat split; try assumption. discriminate.
    + destruct (is_JSONDecodeError e).
      * intros [= <- _]. left. do 3 right. left. eauto.
      * destruct (is_RequestError e); [|destruct (is_Exception e)];
          intros [= <- _]; left; do 5 right; [left|right]; eauto.
  - destruct (json_ resp) as [body|e] eqn:Hj.
    + intros [= <- _]. left. do 4 right. left. eauto.
    + destruct (is_JSONDecodeError e).
      * intros [= <- _]. left. do 4 right. left. eauto.
      * destruct (is_RequestError e); [|destruct (is_Exception e)];
          intros [= <- _]; left; do 5 right; [left|right]; eauto.
Qed.

End Trace.

Lemma external_calls_of_a_call_witness :
  snd (scenario_call (answering no_content_response) (VStr "secret") [])
  = [HttpRequest (scenario_request (VStr "secret"))]
  /\ snd (scenario_call (answering not_found_response) (VStr "secret") [])
     = [HttpRequest (scenario_request (VStr "secret"));
        ResponseJson not_found_response].
Proof.
  split.
  - exact (proj2 (proj2 (proj2
             (external_calls_of_a_call (answering no_content_response)
                (VStr "secret") "POST" ENDPOINT None
                (Some (VDict (payload scenario_rows scenario_form)))
                (30 # 1)%Q [])))
             no_content_response eq_refl eq_refl).
  - exact (proj2 (proj2 (proj2
             (external_calls_of_a_call (answering not_found_response)
                (VStr "secret") "POST" ENDPOINT None
                (Some (VDict (payload scenario_rows scenario_form)))
                (30 # 1)%Q [])))
             not_found_response eq_refl eq_refl).
Defined.

Lemma other_json_errors_are_caught_witness :
  scenario_call (answering undecodable_response) (VStr "secret") []
  = (Ok (UnexpectedError "UnicodeDecodeError"
           "'utf-8' codec can't decode byte 0xff in position 0: invalid start byte"),
     [HttpRequest (scenario_request (VStr "secret"));
      ResponseJson undecodable_response]).
Proof.
  exact (other_json_errors_are_caught (answering undecodable_response)
           (VStr "secret") "POST" ENDPOINT None
           (Some (VDict (payload scenario_rows scenario_form))) (30 # 1)%Q
           undecodable_response _ [] eq_refl eq_refl eq_refl eq_refl eq_refl).
Defined.

Lemma gateway_result_cases_witness :
  built_by_gateway (HttpError 404 (VDict [("msg", VStr "not found")]))
  \/ exists resp,
       truthy (VStr "secret") = true
       /\ answering not_found_response (scenario_request (VStr "secret"))
          = Ok resp
       /\ 200 <= status_code resp < 300
       /\ status_code resp <> 204
       /\ content resp <> []
       /\ json_ resp = Ok (HttpError 404 (VDict [("msg", VStr "not found")])).
Proof.
  exact (gateway_result_cases (answering not_found_response) (VStr "secret")
           "POST" ENDPOINT None
           (Some (VDict (payload scenario_rows scenario_form))) (30 # 1)%Q
           [] _ _ eq_refl).
Defined.

End GatewayMore.

(** ** More on what happens when "Extract Data" is pressed *)

Module RunFacts.

(** X16: a result that is not a dictionary (a JSON list, text, number or
    [null] sent by the server) makes the handler raise [TypeError]; nothing
    is shown, neither an error nor a link. *)
Theorem result_that_is_no_dict (v : value) (t : list event) :
  (forall d, v <> VDict d) ->
  exists msg, show_result v t = (Raise (OtherException "TypeError" msg), t).
Proof.
  intros Hv. unfold show_result, bind, lift, emit, ret.
  destruct v as [| b | n | s | l | d]; simpl; eauto.
  - destruct (occurs "error" s); simpl; eauto.
  - destruct (existsb _ l); simpl; eauto.
  - now destruct (Hv d).
Qed.

Lemma result_that_is_no_dict_witness :
  exists msg,
    show_result (VList [VStr "error"]) []
    = (Raise (OtherException "TypeError" msg), []).
Proof.
  refine (result_that_is_no_dict (VList [VStr "error"]) [] _).
  discriminate.
Defined.

(** The handler never ends well on a dictionary without [report_url]. *)
Lemma show_result_needs_report_url (d : dict) (t t' : list event) :
  get "report_url" d = None -> show_result (VDict d) t <> (Ok tt, t').
Proof.
  intros Hurl. rewrite HandlerFacts.show_result_dict, Hurl. discriminate.
Qed.

(** Nor on a value that is not a dictionary. *)
Lemma show_result_needs_dict (v : value) (t t' : list event) :
  show_result v t = (Ok tt, t') -> exists d, v = VDict d.
Proof.
  unfold show_result, bind, lift, emit, ret.
  destruct v as [| b | n | s | l | d]; simpl; try discriminate.
  - destruct (occurs "error" s); discriminate.
  - destruct (existsb _ l); discriminate.
  - eauto.
Qed.

(** Nor on what the outer handlers of the gateway make of an exception. *)
Lemma caught_never_ends_well (e : exn) (t t' : list event) :
  match caught e with
  | Ok v => show_result v t
  | Raise e' => (Raise e', t)
  end <> (Ok tt, t').
Proof.
  unfold caught.
  destruct (is_RequestError e); [|destruct (is_Exception e)];
    try discriminate; now apply show_result_needs_report_url.
Qed.

Section Run.

Variable network : request -> result response.
Variable api_token : value.
Variables (rows : list MetricRow) (f : form).

Let req : request := extract_request api_token rows f.

Let call : M value :=
  make_linearb_request network api_token "POST" ENDPOINT None
    (Some (VDict (payload rows f))) (30 # 1)%Q.

Lemma on_extract_steps (t : list event) :
  on_extract network api_token rows f t =
  match call (t ++ payload_events rows f)%list with
  | (Ok v, t') => show_result v t'
  | (Raise e, t') => (Raise e, t')
  end.
Proof.
  unfold on_extract, payload_events, call, bind at 1 2 3, emit.
  now rewrite <- app_assoc.
Qed.

(** X17: without a credential the payload is still written to
    [payload.json] and shown, no request is sent, the error of the gateway
    is shown, and the run ends with [KeyError]. *)
Theorem run_without_credential (t : list event) :
  truthy api_token = false ->
  on_extract network api_token rows f t
  = (Raise KeyError_report_url,
     (t ++ payload_events rows f
        ++ [StError (VStr "LinearB API Key is required.")])%list).
Proof.
  intros Htok. rewrite on_extract_steps. unfold call.
  rewrite GatewayFacts.call_without_token by assumption.
  unfold MissingCredential. rewrite HandlerFacts.show_result_dict. simpl.
  now rewrite <- app_assoc.
Qed.

(** X18: when the server answers 204, or another status from 200 to 299
    with an empty body, nothing tells the user: no error is shown, no link
    is shown, and the run ends with [KeyError]. *)
Theorem run_without_body (resp : response) (t : list event) :
  truthy api_token = true ->
  network req = Ok resp ->
  200 <= status_code resp < 300 ->
  status_code resp = 204 \/ content resp = [] ->
  on_extract network api_token rows f t
  = (Raise KeyError_report_url,
     (t ++ payload_events rows f ++ [HttpRequest req])%list).
Proof.
  intros Htok Hnet [Hlo Hhi] Hbody. rewrite on_extract_steps. unfold call.
  rewrite GatewayFacts.call_with_token by assumption.
  fold (extract_request api_token rows f). fold req. rewrite Hnet.
  rewrite GatewayMore.classified_outcome.
  assert (E : json_is_called resp = false).
  { unfold json_is_called.
    apply Z.leb_le in Hlo. apply Z.ltb_lt in Hhi. rewrite Hlo, Hhi. simpl.
    destruct Hbody as [->| ->]; [reflexivity | apply andb_false_r]. }
  rewrite E.
  destruct (status_code resp =? 204);
    unfold NoContent, EmptyBody; rewrite HandlerFacts.show_result_dict; simpl;
    now rewrite <- app_assoc.
Qed.

(** X19: the run ends well only on one path: there is a credential, the
    server answers with a status from 200 to 299 other than 204 and a body
    that is not empty, the body parses to a dictionary, and the dictionary
    has a [report_url]; the link to it is then the last thing shown. *)
Theorem run_ends_well_only_with_report_url (t t' : list event) :
  on_extract network api_token rows f t = (Ok tt, t') ->
  exists (resp : response) (d : dict) (url : value) (shown : list event),
    truthy api_token = true
    /\ network req = Ok resp
    /\ 200 <= status_code resp < 300
    /\ status_code resp <> 204
    /\ content resp <> []
    /\ json_ resp = Ok (VDict d)
    /\ get "report_url" d = Some url
    /\ t' = (shown ++ [StLinkButton "Download data" url])%list.
Proof.
  rewrite on_extract_steps. unfold call.
  destruct (truthy api_token) eqn:Htok.
  2:{ rewrite GatewayFacts.call_without_token by assumption.
      intros H. now apply show_result_needs_report_url in H. }
  destruct (network req) as [resp|e] eqn:Hnet.
  2:{ rewrite (GatewayMore.call_no_response network api_token "POST" ENDPOINT
                 None (Some (VDict (payload rows f))) (30 # 1)%Q e)
        by assumption.
      intros H. now apply caught_never_ends_well in H. }
  rewrite (GatewayMore.call_outcome network api_token "POST" ENDPOINT
             None (Some (VDict (payload rows f))) (30 # 1)%Q resp)
    by assumption.
  destruct (json_is_called resp) eqn:Hcalled.
  2:{ destruct (status_code resp =? 204); intros H;
        now apply show_result_needs_report_url in H. }
  destruct (json_ resp) as [body|e] eqn:Hj.
  2:{ destruct (is_JSONDecodeError e).
      - destruct ((200 <=? status_code resp) && (status_code resp <? 300));
          intros H; now apply show_result_needs_report_url in H.
      - intros H. now apply caught_never_ends_well in H. }
  unfold json_is_called in Hcalled.
  destruct ((200 <=? status_code resp) && (status_code resp <? 300)) eqn:E2.
  2:{ intros H. now apply show_result_needs_report_url in H. }
  intros Hshow.
  destruct (show_result_needs_dict _ _ _ Hshow) as [d ->].
  rewrite HandlerFacts.show_result_dict in Hshow. cbv zeta in Hshow.
  destruct (get "report_url" d) as [url|] eqn:Hurl; [|discriminate].
  destruct url as [| b | n | u | l | d']; try discriminate.
  injection Hshow as <-.
  apply andb_true_iff in E2. destruct E2 as [Hlo Hhi].
  apply Z.leb_le in Hlo. apply Z.ltb_lt in Hhi.
  apply andb_true_iff in Hcalled. destruct Hcalled as [H204 Hc].
  apply negb_true_iff, Z.eqb_neq in H204.
  exists resp, d, (VStr u). eexists.
  repeat split; try eassumption.
  now destruct (content resp).
Qed.

(** X20: on that path, what the handler does depends on [report_url]
    alone.  The request is sent, the body is parsed and an ["error"]
    member of the body is shown if there is one; then, when [report_url]
    is a text, the link to it is shown and the run ends well; when it is
    anything else ([null], a number) [st.link_button] refuses it and the
    run ends with [TypeError], no link shown. *)
Theorem run_with_report_url
  (resp : response) (d : dict) (url : value) (t : list event) :
  truthy api_token = true ->
  network req = Ok resp ->
  200 <= status_code resp < 300 ->
  status_code resp <> 204 ->
  content resp <> [] ->
  json_ resp = Ok (VDict d) ->
  get "report_url" d = Some url ->
  let shown :=
    (t ++ payload_events rows f
       ++ [HttpRequest req; ResponseJson resp]
       ++ match get "error" d with
          | Some body => [StError body]
          | None => []
          end)%list in
  (forall u, url = VStr u ->
     on_extract network api_token rows f t
     = (Ok tt, (shown ++ [StLinkButton "Download data" url])%list))
  /\ ((forall u, url <> VStr u) ->
      exists msg,
        on_extract network api_token rows f t
        = (Raise (OtherException "TypeError" msg), shown)).
Proof.
  intros Htok Hnet [Hlo Hhi] H204 Hc Hj Hurl shown.
  assert (E : on_extract network api_token rows f t
              = st_link_button "Download data" url shown).
  { rewrite on_extract_steps. unfold call.
    rewrite (GatewayMore.call_outcome network api_token "POST" ENDPOINT
               None (Some (VDict (payload rows f))) (30 # 1)%Q resp)
      by assumption.
    assert (Ecalled : json_is_called resp = true).
    { unfold json_is_called.
      apply Z.leb_le in Hlo. apply Z.ltb_lt in Hhi. apply Z.eqb_neq in H204.
      rewrite Hlo, Hhi, H204. simpl. now destruct (content resp). }
    rewrite Ecalled, Hj.
    apply Z.leb_le in Hlo. apply Z.ltb_lt in Hhi. rewrite Hlo, Hhi. simpl.
    rewrite HandlerFacts.show_result_dict, Hurl. cbv zeta. unfold shown.
    f_equal. fold (extract_request api_token rows f). fold req.
    destruct (get "error" d); simpl; now rewrite <- !app_assoc. }
  rewrite E. split.
  - intros u ->. reflexivity.
  - intros Hu. unfold st_link_button, raise.
    destruct url as [| b | n | u | l | d'];
      try (eexists; reflexivity).
    now destruct (Hu u).
Qed.

End Run.

Lemma run_without_credential_witness :
  on_extract timeout_network (VStr "") scenario_rows scenario_form []
  = (Raise KeyError_report_url,
     payload_events scenario_rows scenario_form
       ++ [StError (VStr "LinearB API Key is required.")])%list.
Proof.
  exact (run_without_credential timeout_network (VStr "") scenario_rows
           scenario_form [] eq_refl).
Defined.

Lemma run_without_body_witness :
  on_extract (answering no_content_response) (VStr "secret")
    scenario_rows scenario_form []
  = (Raise KeyError_report_url,
     payload_events scenario_rows scenario_form
       ++ [HttpRequest (extract_request (VStr "secret") scenario_rows
                          scenario_form)])%list.
Proof.
  exact (run_without_body (answering no_content_response) (VStr "secret")
           scenario_rows scenario_form no_content_response [] eq_refl eq_refl
           (GatewayFacts.status_in_range 200 204 300 eq_refl)
           (or_introl eq_refl)).
Defined.

Lemma run_ends_well_only_with_report_url_witness :
  exists (resp : response) (d : dict) (url : value) (shown : list event),
    truthy (VStr "secret") = true
    /\ answering report_response
         (extract_request (VStr "secret") scenario_rows scenario_form)
       = Ok resp
    /\ 200 <= status_code resp < 300
    /\ status_code resp <> 204
    /\ content resp <> []
    /\ json_ resp = Ok (VDict d)
    /\ get "report_url" d = Some url
    /\ snd (on_extract (answering report_response) (VStr "secret")
              scenario_rows scenario_form [])
       = (shown ++ [StLinkButton "Download data" url])%list.
Proof.
  exact (run_ends_well_only_with_report_url (answering report_response)
           (VStr "secret") scenario_rows scenario_form [] _ eq_refl).
Defined.

Lemma run_with_report_url_witness :
  on_extract (answering report_response) (VStr "secret")
    scenario_rows scenario_form []
  = (Ok tt,
     payload_events scenario_rows scenario_form
       ++ [ HttpRequest (extract_request (VStr "secret") scenario_rows
                           scenario_form);
            ResponseJson report_response;
            StLinkButton "Download data" (VStr "https://x/r.csv") ])%list
  /\ exists msg,
       on_extract (answering null_url_response) (VStr "secret")
         scenario_rows scenario_form []
       = (Raise (OtherException "TypeError" msg),
          payload_events scenario_rows scenario_form
            ++ [ HttpRequest (extract_request (VStr "secret") scenario_rows
                                scenario_form);
                 ResponseJson null_url_response ])%list.
Proof.
  assert (Hne : forall x : Z, (x =? 204) = false -> x <> 204)
    by (intros x; apply Z.eqb_neq).
  split.
  - refine (proj1 (run_with_report_url (answering report_response)
                     (VStr "secret")
                     scenario_rows scenario_form report_response
                     [("report_url", VStr "https://x/r.csv")]
                     (VStr "https://x/r.csv")
                     [] eq_refl eq_refl
                     (GatewayFacts.status_in_range 200 200 300 eq_refl)
                     (Hne 200 eq_refl) _ eq_refl eq_refl)
                  "https://x/r.csv" eq_refl).
    discriminate.
  - refine (proj2 (run_with_report_url (answering null_url_response)
                     (VStr "secret")
                     scenario_rows scenario_form null_url_response
                     [("report_url", VNone)] VNone
                     [] eq_refl eq_refl
                     (GatewayFacts.status_in_range 200 200 300 eq_refl)
                     (Hne 200 eq_refl) _ eq_refl eq_refl)
                  _).
    + discriminate.
    + intros u. discriminate.
Defined.

End RunFacts.

(** ** Loading the table of metrics *)

Module LoadFacts.

Import DictFacts.

(** X21: after the table of metrics is loaded every metric is marked as
    selected, whatever [metrics.json] says about it, and nothing else of a
    metric is touched: every other key reads as before, and no metric is
    added or lost. *)
Theorem loaded_metrics_are_selected (metrics_list : list dict) :
  Forall (fun m => get "selected" m = Some (VBool true))
         (mark_selected metrics_list)
  /\ (forall k : string, k <> "selected" ->
        map (get k) (mark_selected metrics_list) = map (get k) metrics_list)
  /\ List.length (mark_selected metrics_list) = List.length metrics_list.
Proof.
  unfold mark_selected. split; [|split].
  - apply Forall_map, Forall_forall. intros m _.
    now rewrite get_set, String.eqb_refl.
  - intros k Hk. rewrite map_map. apply map_ext. intros m.
    rewrite get_set. apply String.eqb_neq in Hk. now rewrite Hk.
  - apply length_map.
Qed.

Lemma loaded_metrics_are_selected_witness :
  map (get "name")
      (mark_selected [ [("name", VStr "cycle_time"); ("selected", VBool false)];
                       [("name", VStr "pr.merged")] ])
  = [Some (VStr "cycle_time"); Some (VStr "pr.merged")].
Proof.
  refine (proj1 (proj2 (loaded_metrics_are_selected
                          [ [("name", VStr "cycle_time");
                             ("selected", VBool false)];
                            [("name", VStr "pr.merged")] ])) "name" _).
  discriminate.
Defined.

End LoadFacts.
